(** * A shallow embedding of [http_server.py]

    The development follows the source file function by function:
    the response constructors, [parse_request], [response_path],
    [stdout_io], [run_python_script] and the per-connection body of
    [server].

    Modelling conventions.
    - Python [str] and [bytes] values are both [string]; [.encode()] and
      [.decode("utf8")] are the identity on this representation (exact
      for ASCII text, which is all the server itself ever produces).
    - Exceptions and mutable process state are threaded through a
      state-and-exception monad [M] in which, as in Python, the state
      changes made before a [raise] survive it.
    - The working directory is a tree of directories and regular files;
      [os.scandir] and [open] are path walks over that tree with the
      POSIX error conditions ENOENT, ENOTDIR and EISDIR.
    - The two library calls whose behaviour is data outside the source
      file, [mimetypes.MimeTypes().guess_type] and [exec], are the two
      fields of the class [Host].
    - Of [server], the body of the accept loop is modelled, for one
      connection whose receive loop has ended; the informational lines
      printed to [log_buffer] are left out.
    - Where the text is not ASCII the model is coarser than Python: a
      slice counts bytes where Python counts characters, and decoding a
      piece of input or encoding a file name cannot fail here. File names
      have no length limit here. Statements that would otherwise depend
      on this carry the condition that makes the model exact (ASCII
      text, a leading separator, a name within [NAME_MAX]). *)

From Stdlib Require Import Ascii String DecimalString List Arith Lia Bool.
From stdpp Require Import base decidable list strings.
Import ListNotations.

Local Open Scope string_scope.
Local Open Scope list_scope.

(* stdpp freezes [String.append] under [simpl]; the proofs below compute
   with string literals. *)
#[local] Arguments String.append !_ _ / : simpl nomatch.

(** ** Text *)

Module Text.

Definition CR : ascii := "013"%char.
Definition LF : ascii := "010"%char.
Definition NUL : ascii := "000"%char.

(** The two-character line break written ["\r\n"] in the source. *)
Definition CRLF : string := String CR (String LF EmptyString).

Definition SP : string := " ".

(** [s[n:]] for [0 <= n]. *)
Fixpoint drop_chars (n : nat) (s : string) : string :=
  match n, s with
  | O, _ => s
  | S _, EmptyString => EmptyString
  | S k, String _ s' => drop_chars k s'
  end.

(** [s[-n:]] for [0 < n]: the last [n] characters, the whole string when
    it is shorter. *)
Definition last_chars (n : nat) (s : string) : string :=
  drop_chars (String.length s - n) s.

(** [sep.join(parts)]. *)
Fixpoint join (sep : string) (parts : list string) : string :=
  match parts with
  | [] => EmptyString
  | [p] => p
  | p :: rest => p +:+ sep +:+ join sep rest
  end.

(** [s.split(sep)] for a non-empty [sep]: a left-to-right scan for
    non-overlapping occurrences. [skip] counts the characters of a
    separator just matched that are still to be passed over; [cur] is
    the field being accumulated. *)
Fixpoint split_go (sep : string) (skip : nat) (cur : string) (s : string)
  : list string :=
  match s with
  | EmptyString => [cur]
  | String c s' =>
      match skip with
      | S k => split_go sep k cur s'
      | O =>
          if String.prefix sep s
          then cur :: split_go sep (String.length sep - 1) EmptyString s'
          else split_go sep 0 (cur +:+ String c EmptyString) s'
      end
  end.

Definition split (sep : string) (s : string) : list string :=
  split_go sep 0 EmptyString s.

(** [c in s] for a single character. *)
Fixpoint has_char (c : ascii) (s : string) : bool :=
  match s with
  | EmptyString => false
  | String d s' => if Ascii.eqb c d then true else has_char c s'
  end.

End Text.
Import Text.

(** ** Exceptions and the process state *)

(** The exception classes that the source raises, catches, or can receive
    from the operating system. [OtherError] stands for any class that is
    none of the former and a subclass of none of them. *)
Inductive Exn : Type :=
  | NotImplementedError
  | NameError
  | ValueError
  | FileNotFoundError
  | NotADirectoryError
  | IsADirectoryError
  | OtherError (name : string).

#[global] Instance Exn_eq_dec : EqDecision Exn.
Proof. solve_decision. Defined.

(** The subclasses of [OSError] among them. *)
Definition is_fs_error (e : Exn) : bool :=
  match e with
  | FileNotFoundError | NotADirectoryError | IsADirectoryError => true
  | _ => false
  end.

Inductive outcome (A : Type) : Type :=
  | Return (a : A)
  | Raise (e : Exn).
Arguments Return {A} a.
Arguments Raise {A} e.

(** ** Response constructors *)

Definition response_ok (body : string) (mimetype : string) : string :=
  join CRLF [ "HTTP/1.1 200 OK";
              "Content-Type: " +:+ mimetype;
              EmptyString;
              body ].

Definition response_method_not_allowed : string :=
  join CRLF [ "HTTP/1.1 405 Method Not Allowed";
              EmptyString;
              "You can't do that on this server!" ].

Definition response_not_found : string :=
  join CRLF [ "HTTP/1.1 404 Not Found" ].

(** ** Request parsing *)

(** Line 76: [method, path, version = request.split("\r\n")[0].split(" ")].
    [str.split] never returns an empty list, so the index [0] is always
    there. Unpacking anything but three fields raises [ValueError]. *)
Definition first_line (request : string) : string :=
  match split CRLF request with
  | line :: _ => line
  | [] => EmptyString
  end.

Definition request_fields (request : string) : list string :=
  split SP (first_line request).

Definition unpack3 (fields : list string) : outcome (string * string * string) :=
  match fields with
  | [method; path; version] => Return (method, path, version)
  | _ => Raise ValueError
  end.

Definition parse_request (request : string) : outcome string :=
  match unpack3 (request_fields request) with
  | Raise e => Raise e
  | Return (method, path, version) =>
      if decide (method <> "GET") then Raise NotImplementedError
      else Return path
  end.


(** ** The filesystem *)

(** A tree of regular files and directories. The order of a directory's
    entries is the order in which the operating system enumerates them. *)
#[warnings="-register-all"] Inductive node : Type :=
  | File (data : string)
  | Dir (entries : list (string * node)).

Module FS.

Fixpoint lookup_entry (name : string) (entries : list (string * node))
  : option node :=
  match entries with
  | [] => None
  | (n, x) :: rest => if decide (n = name) then Some x else lookup_entry name rest
  end.

(** Path resolution, one component at a time. [up] is the chain of
    directories entered so far, nearest first; [..] at the top stays
    there, as it does at [/]. Any component, even an empty one left by a
    trailing separator, asked of a regular file is ENOTDIR. *)
Fixpoint walk (up : list node) (cur : node) (comps : list string)
  : outcome node :=
  match comps with
  | [] => Return cur
  | c :: rest =>
      match cur with
      | File _ => Raise NotADirectoryError
      | Dir entries =>
          if decide (c = EmptyString \/ c = ".") then walk up cur rest
          else if decide (c = "..") then
            match up with
            | [] => walk [] cur rest
            | parent :: up' => walk up' parent rest
            end
          else
            match lookup_entry c entries with
            | None => Raise FileNotFoundError
            | Some child => walk (cur :: up) child rest
            end
      end
  end.

(** Resolution of a relative path name from the working directory
    [cwd]. A name with an embedded NUL never reaches the operating
    system: Python raises [ValueError]. *)
Definition resolve (cwd : node) (name : string) : outcome node :=
  if has_char NUL name then Raise ValueError
  else walk [] cwd (split "/" name).

(** [os.scandir(name)] / [os.listdir(name)]: the entry names. *)
Definition scandir (cwd : node) (name : string) : outcome (list string) :=
  match resolve cwd name with
  | Raise e => Raise e
  | Return (File _) => Raise NotADirectoryError
  | Return (Dir entries) => Return (map fst entries)
  end.

(** [open(name).read()], in text or binary mode. *)
Definition read_file (cwd : node) (name : string) : outcome string :=
  match resolve cwd name with
  | Raise e => Raise e
  | Return (Dir _) => Raise IsADirectoryError
  | Return (File data) => Return data
  end.

(** The path maps to a real location. *)
Definition exists_ (cwd : node) (name : string) : bool :=
  match resolve cwd name with
  | Return _ => true
  | Raise _ => false
  end.

End FS.

(** ** pathlib *)

Module Pathlib.

(** [pathlib.Path(s).parts] for a relative [s]: empty and [.]
    components are dropped, [..] is kept. *)
Definition parts (s : string) : list string :=
  filter (fun c => c <> EmptyString /\ c <> ".") (split "/" s).

(** [str(pathlib.Path(s))]. *)
Definition Path (s : string) : string :=
  match parts s with
  | [] => "."
  | ps => join "/" ps
  end.

(** [str(child)] for the child [name] yielded by [Path.iterdir]. *)
Definition child (parent : string) (name : string) : string :=
  parent +:+ "/" +:+ name.

End Pathlib.

(** ** The process *)

(** What [sys.stdout] may be bound to: the stream the process was started
    with, or one of the [StringIO] objects, named by allocation order. *)
Inductive Sink : Type :=
  | RealStdout
  | Capture (id : nat).

#[global] Instance Sink_eq_dec : EqDecision Sink.
Proof. solve_decision. Defined.

Inductive ConnEvent : Type :=
  | Sendall (data : string)
  | Close.

Record State : Type := mkState {
  cwd : node;                  (* the filesystem, from the working directory *)
  clock : nat;                 (* the wall clock, in seconds *)
  sys_stdout : Sink;           (* current binding of [sys.stdout] *)
  console : string;            (* everything written to the real stream *)
  stringios : list string;     (* contents of the [StringIO] objects *)
  stderr : list Exn;           (* tracebacks printed by [print_exc] *)
  conn : list ConnEvent;       (* calls made on the accepted connection *)
  runner_calls : list string;  (* ghost: arguments of [run_python_script] *)
  exec_calls : list string     (* ghost: source texts handed to [exec] *)
}.

Definition set_sys_stdout (v : Sink) (st : State) : State :=
  mkState (cwd st) (clock st) v (console st) (stringios st) (stderr st)
          (conn st) (runner_calls st) (exec_calls st).
Definition set_console (v : string) (st : State) : State :=
  mkState (cwd st) (clock st) (sys_stdout st) v (stringios st) (stderr st)
          (conn st) (runner_calls st) (exec_calls st).
Definition set_stringios (v : list string) (st : State) : State :=
  mkState (cwd st) (clock st) (sys_stdout st) (console st) v (stderr st)
          (conn st) (runner_calls st) (exec_calls st).
Definition set_stderr (v : list Exn) (st : State) : State :=
  mkState (cwd st) (clock st) (sys_stdout st) (console st) (stringios st) v
          (conn st) (runner_calls st) (exec_calls st).
Definition set_conn (v : list ConnEvent) (st : State) : State :=
  mkState (cwd st) (clock st) (sys_stdout st) (console st) (stringios st)
          (stderr st) v (runner_calls st) (exec_calls st).
Definition set_runner_calls (v : list string) (st : State) : State :=
  mkState (cwd st) (clock st) (sys_stdout st) (console st) (stringios st)
          (stderr st) (conn st) v (exec_calls st).
Definition set_exec_calls (v : list string) (st : State) : State :=
  mkState (cwd st) (clock st) (sys_stdout st) (console st) (stringios st)
          (stderr st) (conn st) (runner_calls st) v.

(** Computations that read and change the process state and may raise.
    The state reached when an exception is raised is kept. *)
Definition M (A : Type) : Type := State -> outcome A * State.

Definition ret {A} (a : A) : M A := fun st => (Return a, st).
Definition raise {A} (e : Exn) : M A := fun st => (Raise e, st).
Definition bind {A B} (m : M A) (k : A -> M B) : M B :=
  fun st =>
    match m st with
    | (Return a, st') => k a st'
    | (Raise e, st') => (Raise e, st')
    end.
Definition lift {A} (r : outcome A) : M A := fun st => (r, st).
Definition gets {A} (f : State -> A) : M A := fun st => (Return (f st), st).
Definition modify (f : State -> State) : M unit := fun st => (Return tt, f st).

(** [try: body  except ...:]. [handlers e] is the suite of the first
    [except] clause that matches [e], if any; an exception raised inside
    that suite is not offered to the sibling clauses. *)
Definition try_except {A} (body : M A) (handlers : Exn -> option (M A)) : M A :=
  fun st =>
    match body st with
    | (Return a, st') => (Return a, st')
    | (Raise e, st') =>
        match handlers e with
        | Some h => h st'
        | None => (Raise e, st')
        end
    end.

(** [try: body  finally: cleanup]. *)
Definition try_finally {A} (body : M A) (cleanup : M unit) : M A :=
  fun st =>
    match body st with
    | (r, st') =>
        match cleanup st' with
        | (Return _, st'') => (r, st'')
        | (Raise e, st'') => (Raise e, st'')
        end
    end.

Declare Scope py_scope.
Delimit Scope py_scope with py.
Notation "'let!' x ':=' m 'in' k" := (bind m (fun x => k))
  (at level 10, x pattern, m at level 100, k at level 200) : py_scope.
Notation "'do!' m 'in' k" := (bind m (fun _ => k))
  (at level 10, m at level 100, k at level 200) : py_scope.
Local Open Scope py_scope.

(** ** The host: library behaviour that is data outside the source file *)

Class Host : Type := {
  (** [mimetypes.MimeTypes().guess_type(url)[0]]: a table lookup on the
      extension of [url]; [None] when the extension is not in the table. *)
  guess_type : string -> option string;
  (** What running a source text does, as far as the server can tell: the
      texts it writes to [sys.stdout], in order, and the exception that
      ends it, if one does. A script may read the filesystem and the
      wall clock. *)
  script_run : string -> node -> nat -> list string * option Exn
}.

Section Server.

Context {host : Host}.

(** *** Standard output *)

(** [sys.stdout.write(s)] *)
Definition stdout_write (s : string) (st : State) : State :=
  match sys_stdout st with
  | RealStdout => set_console (console st +:+ s) st
  | Capture id => set_stringios (alter (fun b => b +:+ s) id (stringios st)) st
  end.

(** The text a sequence of writes leaves in an empty buffer. *)
Definition written (writes : list string) : string :=
  fold_right String.append EmptyString writes.

(** [print(s)] *)
Definition print (s : string) : M unit :=
  modify (stdout_write (s +:+ String LF EmptyString)).

(** [StringIO()] *)
Definition StringIO : M nat :=
  fun st => (Return (length (stringios st)),
             set_stringios (stringios st ++ [EmptyString]) st).

(** [buffer.getvalue()] *)
Definition getvalue (id : nat) : M string :=
  gets (fun st => default EmptyString (stringios st !! id)).

(** [with stdout_io() as output: body]; the one call passes no argument,
    so a new [StringIO] is made. The source is a generator-based
    context manager with no [try]/[finally] around its [yield]: an
    exception leaving [body] is thrown into the generator at the
    [yield], is not caught there, and the assignment after the [yield]
    does not run. *)
Definition stdout_io {A} (body : nat -> M A) : M A :=
  let! old := gets sys_stdout in
  let! stdout := StringIO in
  do! modify (set_sys_stdout (Capture stdout)) in
  let! r := body stdout in
  do! modify (set_sys_stdout old) in
  ret r.

(** *** The script runner *)

(** [exec(source)] *)
Definition exec (source : string) : M unit :=
  fun st =>
    let st1 := set_exec_calls (exec_calls st ++ [source]) st in
    let '(writes, ending) := script_run source (cwd st1) (clock st1) in
    let st2 := fold_left (fun s w => stdout_write w s) writes st1 in
    match ending with
    | None => (Return tt, st2)
    | Some e => (Raise e, st2)
    end.

(** [open(name).read()] *)
Definition open_read (name : string) : M string :=
  fun st => (FS.read_file (cwd st) name, st).

Definition run_python_script (path : string) : M (string * string) :=
  do! modify (fun st => set_runner_calls (runner_calls st ++ [path]) st) in
  let! output :=
    stdout_io (fun output =>
      let! source := open_read ("./webroot" +:+ path) in
      do! exec source in
      ret output) in
  let! content := getvalue output in
  let mime_type := "text/html" in
  ret (content, mime_type).

(** *** Path resolution *)

Definition valid_scripts : list string := ["make_time.py"].

(** [open_path.iterdir()], as the list of [str(child)]. *)
Definition iterdir (open_path : string) : M (list string) :=
  fun st =>
    match FS.scandir (cwd st) open_path with
    | Raise e => (Raise e, st)
    | Return names => (Return (map (Pathlib.child open_path) names), st)
    end.

(** The loop of lines 127-128. *)
Definition listing (children : list string) : string :=
  fold_left (fun content child => content +:+ drop_chars 8 child +:+ CRLF)
            children EmptyString.

(** [guess_type] cannot raise, so [mime_type] is bound to its encoded
    value by the time any handler runs. *)
Definition response_path (path : string) : M (string * string) :=
  let mime_type :=
    match guess_type ("./webroot/" +:+ path) with
    | None => "text/plain"
    | Some t => t
    end in
  try_except
    (let! children := iterdir (Pathlib.Path ("./webroot/" +:+ path)) in
     ret (listing children, mime_type))
    (fun e =>
       match e with
       | FileNotFoundError => Some (raise NameError)
       | NotADirectoryError =>
           Some (if bool_decide (last_chars 3 path = ".py")
                    && bool_decide (drop_chars 1 path ∈ valid_scripts)
                 then run_python_script path
                 else
                   let! content := open_read ("./webroot/" +:+ path) in
                   ret (content, mime_type))
       | _ => None
       end).

(** *** The connection handler *)

(** Lines 184-194: the inner [try] that builds [response]. *)
Definition build_response (request : string) : M string :=
  try_except
    (let! path := lift (parse_request request) in
     let! (body, mimetype) := response_path path in
     ret (response_ok body mimetype))
    (fun e =>
       match e with
       | NotImplementedError => Some (ret response_method_not_allowed)
       | NameError => Some (ret response_not_found)
       | _ => None
       end).

(** Lines 170-200 for one accepted connection on which the receive loop
    has accumulated [request]. The bare [except:] catches everything,
    so the computation itself never raises. *)
Definition server_connection (request : string) : M unit :=
  do! modify (set_conn []) in
  try_finally
    (try_except
       (do! print ("Request received:" +:+ String LF request
                   +:+ String LF (String LF EmptyString)) in
        let! response := build_response request in
        modify (fun st => set_conn (conn st ++ [Sendall response]) st))
       (fun e => Some (modify (fun st => set_stderr (stderr st ++ [e]) st))))
    (modify (fun st => set_conn (conn st ++ [Close]) st)).

(** *** Observations used in the statements below *)

(** The test of line 135. *)
Definition script_allowed (path : string) : Prop :=
  last_chars 3 path = ".py" /\ drop_chars 1 path ∈ valid_scripts.



(** The location [response_path] probes for [path]. *)
Definition probe (path : string) : string :=
  Pathlib.Path ("./webroot/" +:+ path).

(** What the client was sent on the connection. *)
Definition sent (st : State) : list string :=
  omap (fun ev => match ev with Sendall d => Some d | Close => None end)
       (conn st).

End Server.

(** ** A concrete host and concrete filesystems, to run the model on *)

Module Sample.

(** [posixpath.splitext] on the last component of [url]: the extension
    from the last dot, leading dots of the name apart. *)
Definition extension (url : string) : string :=
  let name := List.last (split "/" url) EmptyString in
  match split "." name with
  | [] | [_] => EmptyString
  | first :: rest =>
      if bool_decide (filter (fun p => p <> EmptyString) (first :: removelast rest) = [])
      then EmptyString
      else "." +:+ List.last rest EmptyString
  end.

(** A few rows of the table of the [mimetypes] module. *)
Definition types_map : list (string * string) :=
  [ (".html", "text/html"); (".htm", "text/html"); (".txt", "text/plain");
    (".png", "image/png"); (".jpg", "image/jpeg"); (".py", "text/x-python") ].

Fixpoint assoc (k : string) (table : list (string * string)) : option string :=
  match table with
  | [] => None
  | (k', v) :: rest => if decide (k' = k) then Some v else assoc k rest
  end.

Definition guess (url : string) : option string :=
  assoc (extension url) types_map.

(** A line-oriented fragment of Python, enough to write scripts that
    print, read the clock, and fail. *)
Inductive stmt : Type :=
  | SImport
  | SPrint (text : string)
  | SPrintTime
  | SRaise (e : Exn).

Definition show_nat (n : nat) : string :=
  DecimalString.NilZero.string_of_uint (Nat.to_uint n).

Definition parse_line (line : string) : option stmt :=
  if decide (line = "import time") then Some SImport
  else if decide (line = "print(int(time.time()))") then Some SPrintTime
  else if decide (line = "raise RuntimeError") then Some (SRaise (OtherError "RuntimeError"))
  else if decide (line = "raise NameError") then Some (SRaise NameError)
  else if String.prefix "print('" line && bool_decide (last_chars 2 line = "')")
       then let inner := drop_chars 7 line in
            let text := String.substring 0 (String.length inner - 2) inner in
            if has_char "'"%char text then None else Some (SPrint text)
  else None.

Fixpoint parse_lines (lines : list string) : option (list stmt) :=
  match lines with
  | [] => Some []
  | l :: rest =>
      if decide (l = EmptyString) then parse_lines rest
      else match parse_line l, parse_lines rest with
           | Some s, Some ss => Some (s :: ss)
           | _, _ => None
           end
  end.

Fixpoint run_stmts (now : nat) (prog : list stmt) : list string * option Exn :=
  match prog with
  | [] => ([], None)
  | SImport :: rest => run_stmts now rest
  | SPrint text :: rest =>
      let '(ws, e) := run_stmts now rest in
      ((text +:+ String LF EmptyString) :: ws, e)
  | SPrintTime :: rest =>
      let '(ws, e) := run_stmts now rest in
      ((show_nat now +:+ String LF EmptyString) :: ws, e)
  | SRaise e :: _ => ([], Some e)
  end.

(** [exec] compiles the whole text first: a line outside the fragment
    is a [SyntaxError] before anything runs. *)
Definition run (source : string) (now : nat) : list string * option Exn :=
  match parse_lines (split (String LF EmptyString) source) with
  | None => ([], Some (OtherError "SyntaxError"))
  | Some prog => run_stmts now prog
  end.

Definition host : Host :=
  {| guess_type := guess; script_run := fun source _ now => run source now |}.

Definition nl (lines : list string) : string :=
  join (String LF EmptyString) lines.

Definition hello_py : string := nl ["print('<h1>hello</h1>')"].
Definition fail_py : string := nl ["print('partial')"; "raise RuntimeError"].

(** A working directory holding a document root with a page, a text
    file, an image directory, a directory whose name carries an
    extension, and the script [script] under the allow-listed name. *)
Definition site (script : string) : node :=
  Dir [ ("webroot",
         Dir [ ("a_web_page.html", File "<html>hi</html>");
               ("file.txt", File "plain words");
               ("images", Dir [ ("sample_1.png", File "PNG") ]);
               ("docs.html", Dir [ ("index.txt", File "index") ]);
               ("other.py", File "print('not run')");
               ("make_time.py", File script) ]) ].

(** A document root without the allow-listed script. *)
Definition bare_site : node :=
  Dir [ ("webroot", Dir [ ("file.txt", File "plain words") ]) ].

(** A process that has just started, at time [now]. *)
Definition boot (fs : node) (now : nat) : State :=
  mkState fs now RealStdout EmptyString [] [] [] [] [].


Definition get (path : string) : string :=
  "GET " +:+ path +:+ " HTTP/1.1" +:+ CRLF +:+ "Host: localhost" +:+ CRLF +:+ CRLF.

End Sample.


(** ** The receive loop and the accept loop *)

(** [needle in hay] for strings. *)
Fixpoint contains (needle hay : string) : bool :=
  String.prefix needle hay
  || match hay with
     | EmptyString => false
     | String _ rest => contains needle rest
     end.

(** The character is in the ASCII range: its high bit is clear. For text
    made of such characters a byte is a character, [.decode("utf8")] and
    [.encode()] cannot raise, and the model of text is exact. *)
Definition is_ascii (c : ascii) : bool :=
  match c with
  | Ascii _ _ _ _ _ _ _ high => negb high
  end.

Fixpoint ascii_only (s : string) : bool :=
  match s with
  | EmptyString => true
  | String c rest => is_ascii c && ascii_only rest
  end.

(** [NAME_MAX]: the longest file name, in bytes, the operating system
    looks up; a longer one is an error of its own, not a missing file. *)
Definition NAME_MAX : nat := 255.

(** The end-of-headers marker written ["\r\n\r\n"] in the source. *)
Definition terminator : string := CRLF +:+ CRLF.

(** Lines 174-180. [chunks] is what the successive calls of [conn.recv]
    return, decoded. The marker is looked for in everything accumulated so
    far, after each call. When the peer has nothing more to send the loop
    does not end (it waits in [recv], or spins on the empty result of a
    closed connection): that is [None]. *)
Fixpoint recv_loop (request : string) (chunks : list string) : option string :=
  match chunks with
  | [] => None
  | data :: rest =>
      let request := request +:+ data in
      if contains terminator request then Some request
      else recv_loop request rest
  end.

Definition receive (chunks : list string) : option string :=
  recv_loop EmptyString chunks.

(** A name that is one path component and nothing special. *)
Definition simple_name (name : string) : Prop :=
  has_char "/" name = false /\ has_char NUL name = false
  /\ name <> EmptyString /\ name <> "." /\ name <> "..".

Section Loop.

Context {host : Host}.

(** Lines 168-200: the accept loop, for the connections that arrive in
    turn, each given by what its peer sends. The result is the log of
    calls made on each connection served and the state the server is left
    in, waiting in [accept]; [None] when the server is stuck in the
    receive loop of some connection. *)
Fixpoint server_loop (connections : list (list string)) (st : State)
  : option (list (list ConnEvent) * State) :=
  match connections with
  | [] => Some ([], st)
  | chunks :: rest =>
      match receive chunks with
      | None => None
      | Some request =>
          let st' := snd (server_connection request st) in
          match server_loop rest st' with
          | None => None
          | Some (logs, final) => Some (conn st' :: logs, final)
          end
      end
  end.

End Loop.

(** ** More concrete filesystems *)

Module Fixtures.

(** A working directory in which a file next to the document root has a
    name that starts with the name of the document root. *)
Definition neighbours : node :=
  Dir [ ("webroot",
         Dir [ ("xmake_time.py", File "print('inside')");
               ("file.txt", File "plain words") ]);
        ("webrootxmake_time.py", File "print('outside')");
        ("secret.txt", File "not for the web") ].

(** A script that uses a name it never defined. *)
Definition typo_py : string := Sample.nl ["print('<p>')"; "raise NameError"].

End Fixtures.

(** * Properties *)

(** ** Text lemmas *)

Lemma append_empty_r (s : string) : s +:+ EmptyString = s.
Proof. induction s as [|c s IH]; simpl; [reflexivity | now rewrite IH]. Qed.

Lemma append_assoc (a b c : string) : (a +:+ b) +:+ c = a +:+ (b +:+ c).
Proof. induction a as [|x a IH]; simpl; [reflexivity | now rewrite IH]. Qed.

Lemma prefix_empty (s : string) : String.prefix EmptyString s = true.
Proof. now destruct s. Qed.

Lemma prefix_SP_cons (c : ascii) (s : string) :
  String.prefix SP (String c s) = Ascii.eqb " " c.
Proof.
  change (String.prefix SP (String c s))
    with (if ascii_dec " " c then String.prefix EmptyString s else false).
  destruct (ascii_dec " " c) as [<-|Hne].
  - now destruct s.
  - symmetry. now apply Ascii.eqb_neq.
Qed.

(** A field without a space, followed by a space, is split off whole. *)
Lemma split_go_field (p cur rest : string) :
  has_char " " p = false ->
  split_go SP 0 cur (p +:+ String " " rest)
  = (cur +:+ p) :: split_go SP 0 EmptyString rest.
Proof.
  revert cur. induction p as [|a p IH]; intros cur Hp.
  - cbn [String.append]. cbn [split_go]. rewrite prefix_SP_cons.
    rewrite Ascii.eqb_refl. now rewrite append_empty_r.
  - cbn [has_char] in Hp. destruct (Ascii.eqb " " a) eqn:Ha; [discriminate|].
    cbn [String.append split_go]. rewrite prefix_SP_cons, Ha.
    rewrite IH by assumption. now rewrite append_assoc.
Qed.

(** The last field runs to the end of the line. *)
Lemma split_go_last (p cur : string) :
  has_char " " p = false ->
  split_go SP 0 cur p = [cur +:+ p].
Proof.
  revert cur. induction p as [|a p IH]; intros cur Hp.
  - cbn. now rewrite append_empty_r.
  - cbn [has_char] in Hp. destruct (Ascii.eqb " " a) eqn:Ha; [discriminate|].
    cbn [split_go]. rewrite prefix_SP_cons, Ha.
    rewrite IH by assumption. now rewrite append_assoc.
Qed.

Lemma split_three (a b c : string) :
  has_char " " a = false -> has_char " " b = false -> has_char " " c = false ->
  split SP (a +:+ " " +:+ b +:+ " " +:+ c) = [a; b; c].
Proof.
  intros Ha Hb Hc. unfold split.
  change (a +:+ " " +:+ b +:+ " " +:+ c)
    with (a +:+ String " " (b +:+ String " " c)).
  rewrite split_go_field by assumption.
  rewrite split_go_field by assumption.
  now rewrite split_go_last by assumption.
Qed.

(** A line without a carriage return, followed by CR LF, is the first
    element of [request.split("\r\n")]. *)
Lemma split_go_line (line cur rest : string) :
  has_char CR line = false ->
  split_go CRLF 0 cur (line +:+ CRLF +:+ rest)
  = (cur +:+ line) :: split_go CRLF 1 EmptyString (String LF rest).
Proof.
  revert cur. induction line as [|a line IH]; intros cur Hline.
  - rewrite append_empty_r.
    change (EmptyString +:+ CRLF +:+ rest) with (String CR (String LF rest)).
    cbn [split_go].
    change (String.prefix CRLF (String CR (String LF rest)))
      with (String.prefix EmptyString rest).
    now rewrite prefix_empty.
  - cbn [has_char] in Hline. destruct (Ascii.eqb CR a) eqn:Ha; [discriminate|].
    change (String a line +:+ CRLF +:+ rest)
      with (String a (line +:+ CRLF +:+ rest)).
    cbn [split_go].
    change (String.prefix CRLF (String a (line +:+ CRLF +:+ rest)))
      with (if ascii_dec CR a
            then String.prefix (String LF EmptyString) (line +:+ CRLF +:+ rest)
            else false).
    destruct (ascii_dec CR a) as [<-|_].
    + now rewrite Ascii.eqb_refl in Ha.
    + rewrite IH by assumption. now rewrite append_assoc.
Qed.

Lemma first_line_crlf (line rest : string) :
  has_char CR line = false ->
  first_line (line +:+ CRLF +:+ rest) = line.
Proof.
  intros Hline. unfold first_line, split.
  now rewrite split_go_line.
Qed.

(** ** Response constructors *)

(** C6. For every body and MIME type, [response_ok] is exactly the status
    line, the Content-Type header, one empty line and the body, each
    separated by CR LF: there is no other header and nothing follows the
    body. *)
Theorem response_ok_wire (body mimetype : string) :
  response_ok body mimetype
  = "HTTP/1.1 200 OK" +:+ CRLF +:+
    "Content-Type: " +:+ mimetype +:+ CRLF +:+
    CRLF +:+
    body.
Proof.
  unfold response_ok. cbn [join]. reflexivity.
Qed.

Lemma response_method_not_allowed_wire :
  response_method_not_allowed
  = "HTTP/1.1 405 Method Not Allowed" +:+ CRLF +:+ CRLF +:+
    "You can't do that on this server!".
Proof. reflexivity. Qed.

Lemma response_not_found_wire :
  response_not_found = "HTTP/1.1 404 Not Found".
Proof. reflexivity. Qed.

(** ** Request parsing *)

Lemma request_fields_get (request path : string) :
  first_line request = "GET " +:+ path +:+ " HTTP/1.1" ->
  has_char " " path = false ->
  request_fields request = ["GET"; path; "HTTP/1.1"].
Proof.
  intros Hline Hpath. unfold request_fields. rewrite Hline.
  apply (split_three "GET" path "HTTP/1.1");
    [reflexivity | assumption | reflexivity].
Qed.


(** The same for a whole request: the request line, CR LF, and anything
    after it. *)
Lemma has_char_app (c : ascii) (a b : string) :
  has_char c (a +:+ b) = has_char c a || has_char c b.
Proof.
  induction a as [|x a IH]; [reflexivity|].
  cbn [String.append has_char]. now destruct (Ascii.eqb c x).
Qed.

Corollary parse_request_get_raw (path rest : string) :
  has_char " " path = false ->
  has_char CR path = false ->
  parse_request ("GET " +:+ path +:+ " HTTP/1.1" +:+ CRLF +:+ rest)
  = Return path.
Proof.
  intros Hsp Hcr.
  unfold parse_request. rewrite (request_fields_get _ path); [| |exact Hsp].
  { cbn [unpack3]. now case_decide. }
  change ("GET " +:+ path +:+ " HTTP/1.1" +:+ CRLF +:+ rest)
    with ("GET " +:+ (path +:+ (" HTTP/1.1" +:+ (CRLF +:+ rest)))).
  rewrite <- (append_assoc path), <- (append_assoc "GET ").
  apply first_line_crlf.
  rewrite !has_char_app, Hcr. reflexivity.
Qed.


(** ** How the operations unfold *)

Section Unfolding.

Context {host : Host}.

Lemma set_stringios_same (st : State) :
  set_stringios (stringios st) st = st.
Proof. now destruct st. Qed.

(** A run of writes while [sys.stdout] is bound to the newest [StringIO]
    object appends to that object and touches nothing else. *)
Lemma writes_into_capture (writes : list string) :
  forall (st : State) (older : list string) (b : string),
    sys_stdout st = Capture (length older) ->
    stringios st = older ++ [b] ->
    fold_left (fun s w => stdout_write w s) writes st
    = set_stringios (older ++ [b +:+ written writes]) st.
Proof.
  induction writes as [|w writes IH]; intros st older b Hout Hbuf.
  - cbn. rewrite append_empty_r, <- Hbuf. now rewrite set_stringios_same.
  - cbn [fold_left written fold_right].
    assert (Hw : stdout_write w st = set_stringios (older ++ [b +:+ w]) st).
    { unfold stdout_write. rewrite Hout, Hbuf.
      replace (length older) with (length older + 0) by lia.
      now rewrite alter_app_r. }
    rewrite Hw.
    rewrite (IH _ older (b +:+ w)); [| exact Hout | reflexivity].
    now rewrite append_assoc.
Qed.

(** [run_python_script], step by step. *)
Lemma run_python_script_unfold (path : string) (st : State) :
  run_python_script path st =
    let st1 :=
      set_sys_stdout (Capture (length (stringios st)))
        (set_stringios (stringios st ++ [EmptyString])
           (set_runner_calls (runner_calls st ++ [path]) st)) in
    match FS.read_file (cwd st) ("./webroot" +:+ path) with
    | Raise e => (Raise e, st1)
    | Return source =>
        let run := script_run source (cwd st) (clock st) in
        let st2 :=
          set_stringios (stringios st ++ [written (fst run)])
            (set_exec_calls (exec_calls st ++ [source]) st1) in
        match snd run with
        | Some e => (Raise e, st2)
        | None => (Return (written (fst run), "text/html"),
                   set_sys_stdout (sys_stdout st) st2)
        end
    end.
Proof.
  unfold run_python_script, stdout_io, getvalue, bind, modify, gets,
    StringIO, open_read, exec, ret.
  cbn [cwd clock stringios sys_stdout exec_calls runner_calls
       set_runner_calls set_stringios set_sys_stdout set_exec_calls].
  destruct (FS.read_file (cwd st) ("./webroot" +:+ path)) as [source|e];
    [|reflexivity].
  destruct (script_run source (cwd st) (clock st)) as [writes ending].
  cbn [fst snd].
  rewrite (writes_into_capture writes _ (stringios st) EmptyString);
    [| reflexivity | reflexivity].
  destruct ending as [e|]; [reflexivity|].
  cbn [stringios set_stringios set_sys_stdout].
  rewrite list_lookup_middle by reflexivity. reflexivity.
Qed.

Lemma script_test_iff (path : string) :
  bool_decide (last_chars 3 path = ".py")
    && bool_decide (drop_chars 1 path ∈ valid_scripts) = true
  <-> script_allowed path.
Proof.
  unfold script_allowed.
  rewrite andb_true_iff, !bool_decide_eq_true. reflexivity.
Qed.

Lemma script_test_false (path : string) :
  ~ script_allowed path ->
  bool_decide (last_chars 3 path = ".py")
    && bool_decide (drop_chars 1 path ∈ valid_scripts) = false.
Proof.
  intros Hno. apply not_true_is_false. now rewrite script_test_iff.
Qed.

(** [response_path], branch by branch. *)
Lemma response_path_unfold (path : string) (st : State) :
  response_path path st =
    let mime_type :=
      match guess_type ("./webroot/" +:+ path) with
      | None => "text/plain"
      | Some t => t
      end in
    match FS.scandir (cwd st) (probe path) with
    | Return names =>
        (Return (listing (map (Pathlib.child (probe path)) names), mime_type), st)
    | Raise FileNotFoundError => (Raise NameError, st)
    | Raise NotADirectoryError =>
        if bool_decide (last_chars 3 path = ".py")
           && bool_decide (drop_chars 1 path ∈ valid_scripts)
        then run_python_script path st
        else
          match FS.read_file (cwd st) ("./webroot/" +:+ path) with
          | Return content => (Return (content, mime_type), st)
          | Raise e => (Raise e, st)
          end
    | Raise e => (Raise e, st)
    end.
Proof.
  unfold response_path, try_except, bind, iterdir, probe, ret, raise, open_read.
  destruct (FS.scandir (cwd st) (Pathlib.Path ("./webroot/" +:+ path)))
    as [names|e]; [reflexivity|].
  destruct e; try reflexivity.
  destruct (bool_decide (last_chars 3 path = ".py")
            && bool_decide (drop_chars 1 path ∈ valid_scripts));
    [reflexivity|].
  now destruct (FS.read_file (cwd st) ("./webroot/" +:+ path)).
Qed.

(** Resolution leaves the filesystem, the clock, the real output
    stream, the error log and the connection as they were. *)
Lemma response_path_frame (path : string) (st : State) :
  let st' := snd (response_path path st) in
  cwd st' = cwd st /\ clock st' = clock st /\ console st' = console st
  /\ stderr st' = stderr st /\ conn st' = conn st.
Proof.
  rewrite response_path_unfold. cbv zeta.
  destruct (FS.scandir (cwd st) (probe path)) as [names|e]; [now cbn|].
  destruct e; try now cbn.
  destruct (bool_decide (last_chars 3 path = ".py")
            && bool_decide (drop_chars 1 path ∈ valid_scripts)).
  - rewrite run_python_script_unfold. cbv zeta.
    destruct (FS.read_file (cwd st) ("./webroot" +:+ path)) as [source|e];
      [|now cbn].
    now destruct (snd (script_run source (cwd st) (clock st))).
  - now destruct (FS.read_file (cwd st) ("./webroot/" +:+ path)).
Qed.

(** [build_response]: which outcomes become which responses. *)
Lemma build_response_unfold (request : string) (st : State) :
  build_response request st =
    match parse_request request with
    | Raise NotImplementedError => (Return response_method_not_allowed, st)
    | Raise NameError => (Return response_not_found, st)
    | Raise e => (Raise e, st)
    | Return path =>
        match response_path path st with
        | (Return (body, mimetype), st') =>
            (Return (response_ok body mimetype), st')
        | (Raise NotImplementedError, st') =>
            (Return response_method_not_allowed, st')
        | (Raise NameError, st') => (Return response_not_found, st')
        | (Raise e, st') => (Raise e, st')
        end
    end.
Proof.
  unfold build_response, try_except, bind, lift, ret.
  destruct (parse_request request) as [path|e].
  - destruct (response_path path st) as [[[body mimetype]|e] st'];
      [reflexivity|]. now destruct e.
  - now destruct e.
Qed.

Lemma build_response_frame (request : string) (st : State) :
  let st' := snd (build_response request st) in
  cwd st' = cwd st /\ clock st' = clock st /\ console st' = console st
  /\ stderr st' = stderr st /\ conn st' = conn st.
Proof.
  rewrite build_response_unfold.
  destruct (parse_request request) as [path|e].
  - pose proof (response_path_frame path st) as Hf. cbv zeta in Hf.
    destruct (response_path path st) as [[[body mimetype]|e] st'];
      [exact Hf|]. now destruct e.
  - now destruct e.
Qed.

(** The state in which [build_response] runs: a fresh connection, the
    request echoed to [sys.stdout]. *)
Lemma server_connection_unfold (request : string) (st : State) :
  let st0 :=
    stdout_write (("Request received:" +:+ String LF request
                   +:+ String LF (String LF EmptyString))
                  +:+ String LF EmptyString)
                 (set_conn [] st) in
  server_connection request st =
    match build_response request st0 with
    | (Return response, st1) =>
        (Return tt, set_conn ((conn st1 ++ [Sendall response]) ++ [Close]) st1)
    | (Raise e, st1) =>
        (Return tt, set_conn (conn st1 ++ [Close])
                      (set_stderr (stderr st1 ++ [e]) st1))
    end.
Proof.
  unfold server_connection, print, try_finally, try_except, bind, modify.
  cbv zeta.
  destruct (build_response request _) as [[response|e] st1]; reflexivity.
Qed.

Lemma stdout_write_frame (s : string) (st : State) :
  let st' := stdout_write s st in
  cwd st' = cwd st /\ clock st' = clock st /\ stderr st' = stderr st
  /\ conn st' = conn st /\ sys_stdout st' = sys_stdout st
  /\ runner_calls st' = runner_calls st /\ exec_calls st' = exec_calls st.
Proof.
  unfold stdout_write.
  destruct (sys_stdout st) eqn:Hout; cbn; rewrite ?Hout; auto 10.
Qed.

(** What goes out on the connection, and what is logged, as a function
    of the outcome of [build_response]. *)
Lemma server_connection_conn (request : string) (st : State) :
  let st0 :=
    stdout_write (("Request received:" +:+ String LF request
                   +:+ String LF (String LF EmptyString))
                  +:+ String LF EmptyString)
                 (set_conn [] st) in
  let st' := snd (server_connection request st) in
  match fst (build_response request st0) with
  | Return response =>
      conn st' = [Sendall response; Close] /\ stderr st' = stderr st
  | Raise e =>
      conn st' = [Close] /\ stderr st' = stderr st ++ [e]
  end.
Proof.
  cbv zeta. rewrite server_connection_unfold. cbv zeta.
  pose proof (build_response_frame request
    (stdout_write (("Request received:" +:+ String LF request
                   +:+ String LF (String LF EmptyString))
                  +:+ String LF EmptyString) (set_conn [] st))) as Hf.
  cbv zeta in Hf. destruct Hf as (_ & _ & _ & Herr & Hconn).
  pose proof (stdout_write_frame
    (("Request received:" +:+ String LF request
                   +:+ String LF (String LF EmptyString))
                  +:+ String LF EmptyString) (set_conn [] st)) as Hw.
  cbv zeta in Hw. destruct Hw as (_ & _ & Herr0 & Hconn0 & _).
  rewrite Hconn0 in Hconn. rewrite Herr0 in Herr. cbn in Hconn, Herr.
  destruct (build_response request _) as [[response|e] st1];
    cbn in *; rewrite Hconn, Herr; now split.
Qed.

End Unfolding.

(** ** Error responses *)

Section ErrorResponses.

Context {host : Host}.

(** In terms of the fields of line 76: three fields, the first of them
    not [GET]. *)
Lemma non_get_fields_405 (request method path version : string) (st : State) :
  request_fields request = [method; path; version] ->
  method <> "GET" ->
  parse_request request = Raise NotImplementedError
  /\ conn (snd (server_connection request st))
     = [ Sendall ("HTTP/1.1 405 Method Not Allowed" +:+ CRLF +:+ CRLF +:+
                  "You can't do that on this server!");
         Close ]
  /\ sent (snd (server_connection request st))
     = [ "HTTP/1.1 405 Method Not Allowed" +:+ CRLF +:+ CRLF +:+
         "You can't do that on this server!" ].
Proof.
  intros Hfields Hmethod.
  assert (Hparse : parse_request request = Raise NotImplementedError).
  { unfold parse_request. rewrite Hfields. cbn [unpack3]. now case_decide. }
  pose proof (server_connection_conn request st) as Hconn.
  cbv zeta in Hconn. rewrite build_response_unfold, Hparse in Hconn.
  cbn [fst] in Hconn. destruct Hconn as [Hconn _].
  split; [exact Hparse|]. unfold sent. rewrite Hconn.
  split; reflexivity.
Qed.

(** C3. For every request that starts with a line [<method> <path>
    <version>], the three of them free of spaces and carriage returns,
    followed by CR LF and anything at all (headers, a body), with a
    method other than [GET]: [parse_request] raises
    [NotImplementedError], and the one thing sent on the connection
    before it is closed is the 405 response, byte for byte. *)
Theorem non_get_is_405 (method path version rest : string) (st : State) :
  has_char " " method = false -> has_char CR method = false ->
  has_char " " path = false -> has_char CR path = false ->
  has_char " " version = false -> has_char CR version = false ->
  method <> "GET" ->
  let request :=
    method +:+ " " +:+ path +:+ " " +:+ version +:+ CRLF +:+ rest in
  parse_request request = Raise NotImplementedError
  /\ conn (snd (server_connection request st))
     = [ Sendall ("HTTP/1.1 405 Method Not Allowed" +:+ CRLF +:+ CRLF +:+
                  "You can't do that on this server!");
         Close ]
  /\ sent (snd (server_connection request st))
     = [ "HTTP/1.1 405 Method Not Allowed" +:+ CRLF +:+ CRLF +:+
         "You can't do that on this server!" ].
Proof.
  intros Hms Hmc Hps Hpc Hvs Hvc Hmethod request.
  apply (non_get_fields_405 request method path version st); [|exact Hmethod].
  assert (Hline : first_line request
                  = method +:+ " " +:+ path +:+ " " +:+ version).
  { unfold request.
    replace (method +:+ " " +:+ path +:+ " " +:+ version +:+ CRLF +:+ rest)
      with ((method +:+ " " +:+ path +:+ " " +:+ version) +:+ CRLF +:+ rest)
      by (rewrite !append_assoc; reflexivity).
    apply first_line_crlf.
    rewrite !has_char_app, Hmc, Hpc, Hvc. reflexivity. }
  unfold request_fields. rewrite Hline.
  now apply split_three.
Qed.

(** The part of the not-found path that the code does take: when the
    directory enumeration itself reports that the location does not
    exist, resolution raises [NameError] and the 404 status line, and
    nothing else, is sent. *)
Lemma enoent_is_404 (request path : string) (st : State) :
  parse_request request = Return path ->
  FS.scandir (cwd st) (probe path) = Raise FileNotFoundError ->
  response_path path st = (Raise NameError, st)
  /\ conn (snd (server_connection request st))
     = [ Sendall "HTTP/1.1 404 Not Found"; Close ].
Proof.
  intros Hparse Hscan.
  assert (Hres : forall st', cwd st' = cwd st ->
            response_path path st' = (Raise NameError, st')).
  { intros st' Hcwd. rewrite response_path_unfold. cbv zeta.
    now rewrite Hcwd, Hscan. }
  split; [now apply Hres|].
  pose proof (server_connection_conn request st) as Hconn.
  cbv zeta in Hconn. rewrite build_response_unfold, Hparse in Hconn.
  rewrite Hres in Hconn.
  - cbn [fst] in Hconn. now destruct Hconn as [-> _].
  - now destruct (stdout_write_frame
      (("Request received:" +:+ String LF request
        +:+ String LF (String LF EmptyString)) +:+ String LF EmptyString)
      (set_conn [] st)) as (-> & _).
Qed.

(** C10. In the branch taken when enumeration raises
    [NotADirectoryError] and the path is not an allow-listed script, a
    filesystem error raised by the [open] leaves [response_path] as it
    is: it is not turned into [NameError], and the handler logs it,
    sends nothing and closes the connection. *)
Theorem open_error_propagates (path : string) (st : State) (e : Exn) :
  FS.scandir (cwd st) (probe path) = Raise NotADirectoryError ->
  ~ script_allowed path ->
  FS.read_file (cwd st) ("./webroot/" +:+ path) = Raise e ->
  is_fs_error e = true ->
  response_path path st = (Raise e, st)
  /\ e <> NameError
  /\ forall request : string,
       parse_request request = Return path ->
       let st' := snd (server_connection request st) in
       sent st' = [] /\ conn st' = [Close] /\ stderr st' = stderr st ++ [e].
Proof.
  intros Hscan Hno Hopen Hfs.
  assert (Hres : forall st', cwd st' = cwd st ->
            response_path path st' = (Raise e, st')).
  { intros st' Hcwd. rewrite response_path_unfold. cbv zeta.
    rewrite Hcwd, Hscan, (script_test_false _ Hno). now rewrite Hopen. }
  split; [now apply Hres|].
  split; [intros ->; discriminate|].
  intros request Hparse. cbv zeta.
  pose proof (server_connection_conn request st) as Hconn.
  cbv zeta in Hconn. rewrite build_response_unfold, Hparse in Hconn.
  rewrite Hres in Hconn.
  - destruct e; try discriminate; cbn [fst] in Hconn;
      destruct Hconn as [Hc He]; unfold sent; rewrite Hc, He; auto.
  - now destruct (stdout_write_frame
      (("Request received:" +:+ String LF request
        +:+ String LF (String LF EmptyString)) +:+ String LF EmptyString)
      (set_conn [] st)) as (-> & _).
Qed.

End ErrorResponses.

Lemma non_get_is_405_witness :
  parse_request ("POST" +:+ " " +:+ "/a_web_page.html" +:+ " " +:+ "HTTP/1.1"
                 +:+ CRLF +:+ "Host: localhost" +:+ CRLF +:+ CRLF)
  = Raise NotImplementedError.
Proof.
  apply (non_get_is_405 (host := Sample.host)
           "POST" "/a_web_page.html" "HTTP/1.1"
           ("Host: localhost" +:+ CRLF +:+ CRLF)
           (Sample.boot Sample.bare_site 0));
    (reflexivity || discriminate).
Defined.

Lemma open_error_propagates_witness :
  response_path (host := Sample.host) "/file.txt/extra"
    (Sample.boot Sample.bare_site 0)
  = (Raise NotADirectoryError, Sample.boot Sample.bare_site 0).
Proof.
  apply (open_error_propagates (host := Sample.host) "/file.txt/extra"
           (Sample.boot Sample.bare_site 0) NotADirectoryError).
  - reflexivity.
  - intros [Hpy _]. discriminate Hpy.
  - reflexivity.
  - reflexivity.
Defined.

(** C4. The path [/file.txt/extra], below a regular file, maps to no
    location; resolving it raises [NotADirectoryError] rather than
    [NameError], and the client is sent nothing instead of the 404
    response. *)
Theorem missing_below_file_is_not_404 :
  let st := Sample.boot Sample.bare_site 0 in
  FS.exists_ (cwd st) ("./webroot/" +:+ "/file.txt/extra") = false
  /\ fst (response_path (host := Sample.host) "/file.txt/extra" st)
     = Raise NotADirectoryError
  /\ sent (snd (server_connection (host := Sample.host)
                  (Sample.get "/file.txt/extra") st)) = [].
Proof. cbv zeta. repeat split; vm_compute; reflexivity. Qed.

(** ** The script runner *)


Section ScriptRunner.

Context {host : Host}.




(** On a normal return the binding of [sys.stdout] is what it was. *)
Lemma stdout_restored_on_return (path : string) (st : State)
      (r : string * string) :
  fst (run_python_script path st) = Return r ->
  sys_stdout (snd (run_python_script path st)) = sys_stdout st.
Proof.
  rewrite run_python_script_unfold. cbv zeta.
  destruct (FS.read_file (cwd st) ("./webroot" +:+ path)) as [source|e];
    [|discriminate].
  now destruct (snd (script_run source (cwd st) (clock st))).
Qed.

(** On an exception it is not: [sys.stdout] stays bound to the
    [StringIO] object created for the run. *)
Lemma stdout_not_restored_on_raise (path : string) (st : State) (e : Exn) :
  fst (run_python_script path st) = Raise e ->
  sys_stdout (snd (run_python_script path st))
  = Capture (length (stringios st)).
Proof.
  rewrite run_python_script_unfold. cbv zeta.
  destruct (FS.read_file (cwd st) ("./webroot" +:+ path)) as [source|e'];
    [|reflexivity].
  now destruct (snd (script_run source (cwd st) (clock st))).
Qed.


End ScriptRunner.




(** C2. A script that raises leaves [sys.stdout] bound to the capture
    buffer: [run_python_script] ends with the script's exception and the
    redirection still in place, and it is still in place when the
    connection handler has finished with the request. *)
Theorem stdout_left_redirected_after_error :
  let st := Sample.boot (Sample.site Sample.fail_py) 0 in
  let after := run_python_script (host := Sample.host) "/make_time.py" st in
  sys_stdout st = RealStdout
  /\ fst after = Raise (OtherError "RuntimeError")
  /\ sys_stdout (snd after) = Capture 0
  /\ sys_stdout (snd (server_connection (host := Sample.host)
                        (Sample.get "/make_time.py") st)) = Capture 0.
Proof. cbv zeta. repeat split; vm_compute; reflexivity. Qed.

(** ** Directory listings *)

Lemma join_snoc (sep p : string) (ps : list string) (name : string) :
  join sep ((p :: ps) ++ [name]) = join sep (p :: ps) +:+ sep +:+ name.
Proof.
  revert p. induction ps as [|q ps IH]; intros p; [reflexivity|].
  change (join sep ((p :: q :: ps) ++ [name]))
    with (p +:+ sep +:+ join sep ((q :: ps) ++ [name])).
  rewrite IH.
  change (join sep (p :: q :: ps)) with (p +:+ sep +:+ join sep (q :: ps)).
  now rewrite !append_assoc.
Qed.

Lemma split_webroot (path : string) :
  split "/" ("./webroot/" +:+ path) = "." :: "webroot" :: split "/" path.
Proof. unfold split. simpl. now rewrite prefix_empty. Qed.

Lemma parts_webroot (path : string) :
  Pathlib.parts ("./webroot/" +:+ path) = "webroot" :: Pathlib.parts path.
Proof.
  unfold Pathlib.parts. rewrite split_webroot.
  rewrite filter_cons_False by (intros [_ H]; now apply H).
  now rewrite filter_cons_True by (split; discriminate).
Qed.

(** Dropping the first eight characters of [str(child)] removes exactly
    the document root and its separator. *)
Lemma child_relative (path name : string) :
  drop_chars 8 (Pathlib.child (probe path) name)
  = join "/" (Pathlib.parts path ++ [name]).
Proof.
  unfold Pathlib.child, probe, Pathlib.Path. rewrite parts_webroot.
  destruct (Pathlib.parts path) as [|p ps]; [reflexivity|].
  rewrite join_snoc.
  change (join "/" ("webroot" :: p :: ps))
    with ("webroot/" +:+ join "/" (p :: ps)).
  rewrite append_assoc. reflexivity.
Qed.

Lemma listing_from (children : list string) (content : string) :
  fold_left (fun content child => content +:+ drop_chars 8 child +:+ CRLF)
            children content
  = content +:+ written (map (fun child => drop_chars 8 child +:+ CRLF) children).
Proof.
  revert content. induction children as [|c children IH]; intros content.
  - cbn. now rewrite append_empty_r.
  - cbn [fold_left map written fold_right]. rewrite IH.
    now rewrite !append_assoc.
Qed.

Section Directories.

Context {host : Host}.

(** For a location that enumerates as a directory, the content is one
    line per entry, in enumeration order: the entry's path relative to
    the document root, then CR LF. The MIME type is whatever the name
    of the directory suggests, [text/plain] only when it suggests
    nothing. *)
Lemma directory_listing (path : string) (st : State) (names : list string) :
  FS.scandir (cwd st) (probe path) = Return names ->
  response_path path st
  = (Return
       (written (map (fun name =>
                        join "/" (Pathlib.parts path ++ [name]) +:+ CRLF)
                     names),
        match guess_type ("./webroot/" +:+ path) with
        | None => "text/plain"
        | Some t => t
        end), st).
Proof.
  intros Hscan. rewrite response_path_unfold. cbv zeta. rewrite Hscan.
  unfold listing. rewrite listing_from. cbn [String.append].
  rewrite map_map.
  assert (Hlines :
    map (fun name => drop_chars 8 (Pathlib.child (probe path) name) +:+ CRLF) names
    = map (fun name => join "/" (Pathlib.parts path ++ [name]) +:+ CRLF) names).
  { apply map_ext. intros name. now rewrite child_relative. }
  now rewrite Hlines.
Qed.

End Directories.

(** C7. The directory [/docs.html] is listed, but with the MIME type its
    name suggests, [text/html], not [text/plain]. *)
Theorem directory_with_extension_is_not_plain :
  let st := Sample.boot (Sample.site Sample.hello_py) 0 in
  FS.scandir (cwd st) (probe "/docs.html") = Return ["index.txt"]
  /\ response_path (host := Sample.host) "/docs.html" st
     = (Return ("docs.html/index.txt" +:+ CRLF, "text/html"), st).
Proof. cbv zeta. split; vm_compute; reflexivity. Qed.

(** ** Repeating a request *)

Section Repeat.

Context {host : Host}.



End Repeat.



(** * Further properties of the code *)

(** ** More on text *)

Lemma prefix_cons_cons (x y : ascii) (p s : string) :
  String.prefix (String x p) (String y s)
  = if ascii_dec x y then String.prefix p s else false.
Proof. reflexivity. Qed.

Lemma prefix_app (p a b : string) :
  String.prefix p a = true -> String.prefix p (a +:+ b) = true.
Proof.
  revert a. induction p as [|x p IH]; intros a Hp.
  - apply prefix_empty.
  - destruct a as [|y a]; [discriminate Hp|].
    change (String y a +:+ b) with (String y (a +:+ b)).
    rewrite prefix_cons_cons in *.
    destruct (ascii_dec x y); [now apply IH | discriminate Hp].
Qed.

(** A prefix no longer than [a] is decided inside [a]. *)
Lemma prefix_app_long (p a b : string) :
  String.length p <= String.length a ->
  String.prefix p (a +:+ b) = String.prefix p a.
Proof.
  revert a. induction p as [|x p IH]; intros a Hlen.
  - now rewrite !prefix_empty.
  - destruct a as [|y a]; [cbn in Hlen; lia|].
    change (String y a +:+ b) with (String y (a +:+ b)).
    rewrite !prefix_cons_cons.
    destruct (ascii_dec x y); [|reflexivity].
    apply IH. cbn in Hlen. lia.
Qed.

Lemma contains_cons (needle : string) (c : ascii) (hay : string) :
  contains needle (String c hay)
  = String.prefix needle (String c hay) || contains needle hay.
Proof. reflexivity. Qed.

Lemma contains_of_prefix (needle hay : string) :
  String.prefix needle hay = true -> contains needle hay = true.
Proof. intros H. destruct hay; cbn [contains]; now rewrite H. Qed.

Lemma contains_app_l (needle a b : string) :
  contains needle a = true -> contains needle (a +:+ b) = true.
Proof.
  induction a as [|c a IH]; intros Ha.
  - cbn [contains] in Ha. rewrite orb_false_r in Ha.
    apply contains_of_prefix. now apply (prefix_app needle EmptyString b).
  - change (String c a +:+ b) with (String c (a +:+ b)).
    rewrite contains_cons in *. apply orb_true_iff in Ha.
    destruct Ha as [Ha|Ha].
    + pose proof (prefix_app _ (String c a) b Ha) as Hp.
      change (String c a +:+ b) with (String c (a +:+ b)) in Hp.
      now rewrite Hp.
    + rewrite (IH Ha). apply orb_true_r.
Qed.

Lemma contains_app_r (needle a b : string) :
  contains needle b = true -> contains needle (a +:+ b) = true.
Proof.
  intros Hb. induction a as [|c a IH]; [exact Hb|].
  change (String c a +:+ b) with (String c (a +:+ b)).
  rewrite contains_cons, IH. apply orb_true_r.
Qed.

Lemma contains_long (needle hay : string) :
  contains needle hay = true -> String.length needle <= String.length hay.
Proof.
  induction hay as [|c hay IH]; intros H.
  - destruct needle; [cbn; lia | discriminate H].
  - rewrite contains_cons in H. apply orb_true_iff in H. destruct H as [H|H].
    + clear IH. revert H. generalize (String c hay). clear c hay.
      induction needle as [|x needle IHn]; intros s H; [cbn; lia|].
      destruct s as [|y s]; [discriminate H|].
      rewrite prefix_cons_cons in H.
      destruct (ascii_dec x y); [|discriminate H].
      specialize (IHn s H). cbn. lia.
    + specialize (IH H). cbn. lia.
Qed.

(** The marker contains a line break. *)
Lemma contains_terminator_CRLF (s : string) :
  contains terminator s = true -> contains CRLF s = true.
Proof.
  induction s as [|c s IH]; intros H; [discriminate H|].
  rewrite contains_cons in *. apply orb_true_iff in H. destruct H as [H|H].
  - apply orb_true_iff. left.
    change terminator with (String CR (String LF CRLF)) in H.
    unfold CRLF at 1.
    rewrite prefix_cons_cons in *.
    destruct (ascii_dec CR c); [|discriminate H].
    destruct s as [|d s]; [discriminate H|].
    rewrite prefix_cons_cons in *.
    destruct (ascii_dec LF d); [apply prefix_empty | discriminate H].
  - rewrite (IH H). apply orb_true_r.
Qed.

(** The first field of a split is settled by the first occurrence of the
    separator: what follows a text that already contains it is of no
    account. *)
Lemma split_go_head_app (a b cur : string) :
  contains CRLF a = true ->
  hd EmptyString (split_go CRLF 0 cur (a +:+ b))
  = hd EmptyString (split_go CRLF 0 cur a).
Proof.
  revert cur. induction a as [|c a IH]; intros cur Ha; [discriminate Ha|].
  change (String c a +:+ b) with (String c (a +:+ b)).
  cbn [split_go].
  change (String c (a +:+ b)) with (String c a +:+ b).
  pose proof (contains_long _ _ Ha) as Hlen.
  rewrite (prefix_app_long CRLF (String c a) b Hlen).
  rewrite contains_cons in Ha.
  destruct (String.prefix CRLF (String c a)) eqn:Hp; [reflexivity|].
  cbn [orb] in Ha. now apply IH.
Qed.

Lemma first_line_hd (request : string) :
  first_line request = hd EmptyString (split CRLF request).
Proof. unfold first_line. now destruct (split CRLF request). Qed.

Lemma first_line_app (a b : string) :
  contains CRLF a = true -> first_line (a +:+ b) = first_line a.
Proof.
  intros Ha. rewrite !first_line_hd. unfold split.
  now apply split_go_head_app.
Qed.

(** ** More on request parsing *)

(** X1 [parse_request_ignores_rest]. Only the first line of the request
    is looked at: once the text has a line break, appending anything to it
    (headers, a body, a second request) changes neither the outcome nor
    the path. *)
Theorem parse_request_ignores_rest (a b : string) :
  contains CRLF a = true ->
  parse_request (a +:+ b) = parse_request a.
Proof.
  intros Ha. unfold parse_request, request_fields.
  now rewrite first_line_app.
Qed.

Lemma parse_request_ignores_rest_witness :
  parse_request (Sample.get "/file.txt" +:+ "POST /other HTTP/1.1" +:+ CRLF)
  = parse_request (Sample.get "/file.txt").
Proof.
  apply (parse_request_ignores_rest (Sample.get "/file.txt")
           ("POST /other HTTP/1.1" +:+ CRLF)).
  reflexivity.
Defined.

Lemma unpack3_wrong_length (fields : list string) :
  length fields <> 3 -> unpack3 fields = Raise ValueError.
Proof.
  intros Hlen.
  destruct fields as [|a [|b [|c [|d rest]]]]; try reflexivity.
  now destruct Hlen.
Qed.

Section Malformed.

Context {host : Host}.

(** X2 [malformed_request_no_response]. A request line that does not
    split into exactly three fields, whatever its first field, makes
    [parse_request] raise [ValueError]; the handler then logs it, sends
    nothing, not even a 405, and closes the connection. *)
Theorem malformed_request_no_response (request : string) (st : State) :
  length (request_fields request) <> 3 ->
  parse_request request = Raise ValueError
  /\ conn (snd (server_connection request st)) = [Close]
  /\ stderr (snd (server_connection request st)) = stderr st ++ [ValueError].
Proof.
  intros Hlen.
  assert (Hparse : parse_request request = Raise ValueError).
  { unfold parse_request. now rewrite unpack3_wrong_length. }
  split; [exact Hparse|].
  pose proof (server_connection_conn request st) as Hconn.
  cbv zeta in Hconn. rewrite build_response_unfold, Hparse in Hconn.
  exact Hconn.
Qed.

End Malformed.

Lemma malformed_request_no_response_witness :
  parse_request ("POST /a page.html HTTP/1.1" +:+ CRLF +:+ CRLF)
  = Raise ValueError.
Proof.
  apply (malformed_request_no_response (host := Sample.host)
           ("POST /a page.html HTTP/1.1" +:+ CRLF +:+ CRLF)
           (Sample.boot Sample.bare_site 0)).
  vm_compute. lia.
Defined.

(** ** The receive loop *)

Lemma join_empty_cons (p : string) (rest : list string) :
  join EmptyString (p :: rest) = p +:+ join EmptyString rest.
Proof. destruct rest; [now rewrite append_empty_r | reflexivity]. Qed.

Lemma join_empty_app (l1 l2 : list string) :
  join EmptyString (l1 ++ l2) = join EmptyString l1 +:+ join EmptyString l2.
Proof.
  induction l1 as [|p l1 IH]; [reflexivity|].
  change ((p :: l1) ++ l2) with (p :: (l1 ++ l2)).
  now rewrite !join_empty_cons, IH, append_assoc.
Qed.

Lemma recv_loop_none (chunks : list string) :
  forall request : string,
    contains terminator request = false ->
    (recv_loop request chunks = None
     <-> contains terminator (request +:+ join EmptyString chunks) = false).
Proof.
  induction chunks as [|data rest IH]; intros request Hreq.
  - cbn [recv_loop join]. rewrite append_empty_r. now split.
  - cbn [recv_loop]. rewrite join_empty_cons, <- append_assoc.
    destruct (contains terminator (request +:+ data)) eqn:Hnow.
    + split; [discriminate|].
      now rewrite (contains_app_l _ _ _ Hnow).
    + now apply IH.
Qed.

Lemma recv_loop_some (chunks : list string) :
  forall request r : string,
    recv_loop request chunks = Some r ->
    exists (pre : list string) (data : string) (post : list string),
      chunks = pre ++ data :: post
      /\ r = request +:+ join EmptyString (pre ++ [data])
      /\ (contains terminator request = false ->
          contains terminator (request +:+ join EmptyString pre) = false)
      /\ contains terminator r = true.
Proof.
  induction chunks as [|data rest IH]; intros request r Hr; [discriminate Hr|].
  cbn [recv_loop] in Hr.
  destruct (contains terminator (request +:+ data)) eqn:Hnow.
  - injection Hr as <-. exists [], data, rest.
    cbn [app join]. rewrite append_empty_r. auto.
  - destruct (IH _ _ Hr) as (pre & d & post & -> & -> & Hpre & Hr').
    exists (data :: pre), d, post.
    change ((data :: pre) ++ [d]) with (data :: (pre ++ [d])).
    rewrite !join_empty_cons, <- !append_assoc.
    repeat split; auto.
Qed.

(** X3 [receive_returns_iff]. Provided the peer sends ASCII text only, so
    that every result of [recv] decodes, the receive loop comes out with
    a request exactly when the marker CR LF CR LF occurs somewhere in
    what [recv] returns, however that is cut into pieces. *)
Theorem receive_returns_iff (chunks : list string) :
  Forall (fun data => ascii_only data = true) chunks ->
  ((exists request, receive chunks = Some request)
   <-> contains terminator (join EmptyString chunks) = true).
Proof.
  intros _.
  pose proof (recv_loop_none chunks EmptyString eq_refl) as Hnone.
  change (EmptyString +:+ join EmptyString chunks)
    with (join EmptyString chunks) in Hnone.
  unfold receive. split.
  - intros [request Hsome]. apply not_false_is_true. intros Hno.
    apply Hnone in Hno. congruence.
  - intros Hyes. destruct (recv_loop EmptyString chunks) as [request|];
      [now exists request|].
    destruct Hnone as [Hnone _]. specialize (Hnone eq_refl). congruence.
Qed.

Lemma receive_returns_iff_witness :
  exists request,
    receive [ "GET / HT"; "TP/1.1" +:+ CRLF; CRLF +:+ "extra"; "never read" ]
    = Some request.
Proof.
  apply (receive_returns_iff
           [ "GET / HT"; "TP/1.1" +:+ CRLF; CRLF +:+ "extra"; "never read" ]).
  - repeat constructor.
  - reflexivity.
Defined.

(** X4 [receive_stops_at_marker]. What the loop returns is the
    concatenation of the pieces up to and including the first one that
    completes the marker: the pieces before it do not contain the marker,
    the result does, and no later piece is read. *)
Theorem receive_stops_at_marker (chunks : list string) (request : string) :
  receive chunks = Some request ->
  exists (pre : list string) (data : string) (post : list string),
    chunks = pre ++ data :: post
    /\ request = join EmptyString (pre ++ [data])
    /\ contains terminator (join EmptyString pre) = false
    /\ contains terminator request = true.
Proof.
  intros Hr. destruct (recv_loop_some _ _ _ Hr)
    as (pre & data & post & Hc & Hreq & Hpre & Hyes).
  exists pre, data, post. repeat split; auto.
Qed.

Lemma receive_stops_at_marker_witness :
  exists (pre : list string) (data : string) (post : list string),
    [ "GET / HT"; "TP/1.1" +:+ CRLF; CRLF +:+ "extra"; "never read" ]
    = pre ++ data :: post
    /\ "GET / HTTP/1.1" +:+ CRLF +:+ CRLF +:+ "extra"
       = join EmptyString (pre ++ [data])
    /\ contains terminator (join EmptyString pre) = false
    /\ contains terminator ("GET / HTTP/1.1" +:+ CRLF +:+ CRLF +:+ "extra")
       = true.
Proof.
  apply (receive_stops_at_marker
           [ "GET / HT"; "TP/1.1" +:+ CRLF; CRLF +:+ "extra"; "never read" ]).
  reflexivity.
Defined.

(** X5 [parse_after_receive]. Provided the peer sends ASCII text only, so
    that every result of [recv] decodes wherever the data is cut: the
    path parsed from what the receive loop comes out with is the path
    parsed from everything the peer sends. Where the pieces are cut, and
    what follows the piece that completes the marker, make no
    difference. *)
Theorem parse_after_receive (chunks : list string) (request : string) :
  Forall (fun data => ascii_only data = true) chunks ->
  receive chunks = Some request ->
  parse_request request = parse_request (join EmptyString chunks).
Proof.
  intros _ Hr. destruct (recv_loop_some _ _ _ Hr)
    as (pre & data & post & -> & -> & _ & Hyes).
  cbn [String.append] in *.
  change (pre ++ data :: post) with (pre ++ [data] ++ post).
  rewrite app_assoc, (join_empty_app (pre ++ [data]) post).
  unfold parse_request, request_fields.
  rewrite first_line_app; [reflexivity|].
  now apply contains_terminator_CRLF.
Qed.

Lemma parse_after_receive_witness :
  parse_request ("GET /file.txt HTTP/1.1" +:+ CRLF +:+ CRLF)
  = parse_request
      (join EmptyString [ "GET /fi"; "le.txt HTTP/1.1" +:+ CRLF +:+ CRLF; "more" ]).
Proof.
  apply (parse_after_receive
           [ "GET /fi"; "le.txt HTTP/1.1" +:+ CRLF +:+ CRLF; "more" ]).
  - repeat constructor.
  - reflexivity.
Defined.

(** ** Splitting on one character *)

Lemma prefix_char_cons (x y : ascii) (s : string) :
  String.prefix (String x EmptyString) (String y s) = Ascii.eqb x y.
Proof.
  rewrite prefix_cons_cons. destruct (ascii_dec x y) as [<-|Hne].
  - now rewrite prefix_empty, Ascii.eqb_refl.
  - symmetry. now apply Ascii.eqb_neq.
Qed.

Lemma split_go_char_field (x : ascii) (p cur rest : string) :
  has_char x p = false ->
  split_go (String x EmptyString) 0 cur (p +:+ String x rest)
  = (cur +:+ p) :: split_go (String x EmptyString) 0 EmptyString rest.
Proof.
  revert cur. induction p as [|a p IH]; intros cur Hp.
  - change (EmptyString +:+ String x rest) with (String x rest).
    cbn [split_go]. rewrite prefix_char_cons, Ascii.eqb_refl.
    now rewrite append_empty_r.
  - cbn [has_char] in Hp. destruct (Ascii.eqb x a) eqn:Ha; [discriminate|].
    change (String a p +:+ String x rest) with (String a (p +:+ String x rest)).
    cbn [split_go]. rewrite prefix_char_cons, Ha.
    rewrite IH by assumption. now rewrite append_assoc.
Qed.

Lemma split_go_char_last (x : ascii) (p cur : string) :
  has_char x p = false ->
  split_go (String x EmptyString) 0 cur p = [cur +:+ p].
Proof.
  revert cur. induction p as [|a p IH]; intros cur Hp.
  - cbn. now rewrite append_empty_r.
  - cbn [has_char] in Hp. destruct (Ascii.eqb x a) eqn:Ha; [discriminate|].
    cbn [split_go]. rewrite prefix_char_cons, Ha.
    rewrite IH by assumption. now rewrite append_assoc.
Qed.

Lemma split_char_field (x : ascii) (p rest : string) :
  has_char x p = false ->
  split (String x EmptyString) (p +:+ String x rest)
  = p :: split (String x EmptyString) rest.
Proof. intros Hp. unfold split. now rewrite split_go_char_field. Qed.

Lemma split_char_last (x : ascii) (p : string) :
  has_char x p = false -> split (String x EmptyString) p = [p].
Proof. intros Hp. unfold split. now rewrite split_go_char_last. Qed.

(** ** Names directly under the document root *)

Lemma simple_name_parts (name : string) :
  simple_name name -> split "/" name = [name] /\ Pathlib.parts name = [name].
Proof.
  intros (Hslash & _ & Hne & Hdot & _).
  assert (Hs : split "/" name = [name]) by now apply (split_char_last "/").
  split; [exact Hs|]. unfold Pathlib.parts. rewrite Hs.
  now rewrite filter_cons_True by (split; assumption).
Qed.

Lemma probe_simple (name : string) :
  simple_name name -> probe ("/" +:+ name) = "webroot/" +:+ name.
Proof.
  intros Hname. unfold probe, Pathlib.Path. rewrite parts_webroot.
  unfold Pathlib.parts.
  change ("/" +:+ name) with (EmptyString +:+ String "/" name).
  rewrite (split_char_field "/" EmptyString name eq_refl).
  rewrite filter_cons_False by (intros [H _]; now apply H).
  destruct (simple_name_parts name Hname) as [Hs _]. rewrite Hs.
  destruct Hname as (_ & _ & Hne & Hdot & _).
  now rewrite filter_cons_True by (split; assumption).
Qed.

Lemma walk_simple (up : list node) (entries : list (string * node))
      (name : string) (rest : list string) :
  simple_name name ->
  FS.walk up (Dir entries) (name :: rest)
  = match FS.lookup_entry name entries with
    | None => Raise FileNotFoundError
    | Some child => FS.walk (Dir entries :: up) child rest
    end.
Proof.
  intros (_ & _ & Hne & Hdot & Hdots). cbn [FS.walk].
  rewrite decide_False by (intros [H|H]; contradiction).
  now rewrite decide_False by assumption.
Qed.

Lemma walk_skip (up : list node) (entries : list (string * node))
      (c : string) (rest : list string) :
  c = EmptyString \/ c = "." ->
  FS.walk up (Dir entries) (c :: rest) = FS.walk up (Dir entries) rest.
Proof. intros Hc. cbn [FS.walk]. now rewrite decide_True. Qed.

Lemma simple_webroot : simple_name "webroot".
Proof. repeat split; discriminate. Qed.

(** Both spellings of the location of [/name] that the code uses, the
    normalised one given to [iterdir] and the raw one given to [open],
    lead to the entry [name] of the document root. *)
Lemma resolve_in_webroot (entries ws : list (string * node)) (name : string) :
  FS.lookup_entry "webroot" entries = Some (Dir ws) ->
  simple_name name ->
  let found :=
    match FS.lookup_entry name ws with
    | None => Raise FileNotFoundError
    | Some child => Return child
    end in
  FS.resolve (Dir entries) (probe ("/" +:+ name)) = found
  /\ FS.resolve (Dir entries) ("./webroot/" +:+ "/" +:+ name) = found.
Proof.
  intros Hroot Hname. cbv zeta.
  assert (Hnul : has_char NUL name = false) by apply Hname.
  destruct (simple_name_parts name Hname) as [Hs _].
  split.
  - rewrite probe_simple by assumption. unfold FS.resolve.
    rewrite (has_char_app NUL "webroot/" name), Hnul.
    cbn [orb]. change (has_char NUL "webroot/") with false. cbv iota.
    change ("webroot/" +:+ name) with ("webroot" +:+ String "/" name).
    rewrite (split_char_field "/" "webroot" name eq_refl), Hs.
    rewrite (walk_simple _ _ _ _ simple_webroot), Hroot.
    rewrite (walk_simple _ _ _ _ Hname).
    now destruct (FS.lookup_entry name ws).
  - unfold FS.resolve.
    rewrite (has_char_app NUL "./webroot/" ("/" +:+ name)).
    rewrite (has_char_app NUL "/" name), Hnul.
    change (has_char NUL "./webroot/") with false.
    change (has_char NUL "/") with false. cbn [orb]. cbv iota.
    rewrite split_webroot.
    change ("/" +:+ name) with (EmptyString +:+ String "/" name).
    rewrite (split_char_field "/" EmptyString name eq_refl), Hs.
    rewrite walk_skip by now right.
    rewrite (walk_simple _ _ _ _ simple_webroot), Hroot.
    rewrite walk_skip by now left.
    rewrite (walk_simple _ _ _ _ Hname).
    now destruct (FS.lookup_entry name ws).
Qed.

Lemma walk_dotdot (up : list node) (parent : node)
      (entries : list (string * node)) (rest : list string) :
  FS.walk (parent :: up) (Dir entries) (".." :: rest) = FS.walk up parent rest.
Proof.
  cbn [FS.walk].
  rewrite decide_False by (intros [H|H]; discriminate H).
  now rewrite decide_True.
Qed.

(** The two spellings of the location of [/../name]: both climb out of
    the document root and lead to the entry [name] of the working
    directory. *)
Lemma resolve_above_webroot (entries ws : list (string * node)) (name : string) :
  FS.lookup_entry "webroot" entries = Some (Dir ws) ->
  simple_name name ->
  let found :=
    match FS.lookup_entry name entries with
    | None => Raise FileNotFoundError
    | Some child => Return child
    end in
  FS.resolve (Dir entries) (probe ("/../" +:+ name)) = found
  /\ FS.resolve (Dir entries) ("./webroot/" +:+ "/../" +:+ name) = found.
Proof.
  intros Hroot Hname. cbv zeta.
  assert (Hnul : has_char NUL name = false) by apply Hname.
  destruct (simple_name_parts name Hname) as [Hs _].
  assert (Hsplit : split "/" ("/../" +:+ name) = [EmptyString; ".."; name]).
  { change ("/../" +:+ name)
      with (EmptyString +:+ String "/" (".." +:+ String "/" name)).
    rewrite (split_char_field "/" EmptyString _ eq_refl).
    now rewrite (split_char_field "/" ".." name eq_refl), Hs. }
  assert (Hprobe : probe ("/../" +:+ name) = "webroot/../" +:+ name).
  { unfold probe, Pathlib.Path. rewrite parts_webroot.
    unfold Pathlib.parts. rewrite Hsplit.
    rewrite filter_cons_False by (intros [H _]; now apply H).
    rewrite filter_cons_True by (split; discriminate).
    destruct Hname as (_ & _ & Hne & Hdot & _).
    now rewrite filter_cons_True by (split; assumption). }
  split.
  - rewrite Hprobe. unfold FS.resolve.
    rewrite (has_char_app NUL "webroot/../" name), Hnul.
    change (has_char NUL "webroot/../") with false. cbn [orb]. cbv iota.
    change ("webroot/../" +:+ name)
      with ("webroot" +:+ String "/" (".." +:+ String "/" name)).
    rewrite (split_char_field "/" "webroot" _ eq_refl).
    rewrite (split_char_field "/" ".." name eq_refl), Hs.
    rewrite (walk_simple _ _ _ _ simple_webroot), Hroot.
    rewrite walk_dotdot, (walk_simple _ _ _ _ Hname).
    now destruct (FS.lookup_entry name entries).
  - unfold FS.resolve.
    rewrite (has_char_app NUL "./webroot/" ("/../" +:+ name)).
    rewrite (has_char_app NUL "/../" name), Hnul.
    change (has_char NUL "./webroot/") with false.
    change (has_char NUL "/../") with false. cbn [orb]. cbv iota.
    rewrite split_webroot, Hsplit.
    rewrite walk_skip by now right.
    rewrite (walk_simple _ _ _ _ simple_webroot), Hroot.
    rewrite walk_skip by now left.
    rewrite walk_dotdot, (walk_simple _ _ _ _ Hname).
    now destruct (FS.lookup_entry name entries).
Qed.

(** ** From the outcome of resolution to the bytes on the connection *)

Section Outcomes.

Context {host : Host}.

(** The outcome of [response_path] in terms of the filesystem, the clock
    and the host alone. *)
Lemma response_path_outcome (path : string) (st : State) :
  fst (response_path path st) =
    let mime_type :=
      match guess_type ("./webroot/" +:+ path) with
      | None => "text/plain"
      | Some t => t
      end in
    match FS.scandir (cwd st) (probe path) with
    | Return names =>
        Return (listing (map (Pathlib.child (probe path)) names), mime_type)
    | Raise FileNotFoundError => Raise NameError
    | Raise NotADirectoryError =>
        if bool_decide (last_chars 3 path = ".py")
           && bool_decide (drop_chars 1 path ∈ valid_scripts)
        then
          match FS.read_file (cwd st) ("./webroot" +:+ path) with
          | Raise e => Raise e
          | Return source =>
              match snd (script_run source (cwd st) (clock st)) with
              | Some e => Raise e
              | None =>
                  Return (written (fst (script_run source (cwd st) (clock st))),
                          "text/html")
              end
          end
        else
          match FS.read_file (cwd st) ("./webroot/" +:+ path) with
          | Return content => Return (content, mime_type)
          | Raise e => Raise e
          end
    | Raise e => Raise e
    end.
Proof.
  rewrite response_path_unfold. cbv zeta.
  destruct (FS.scandir (cwd st) (probe path)) as [names|e]; [reflexivity|].
  destruct e; try reflexivity.
  destruct (bool_decide (last_chars 3 path = ".py")
            && bool_decide (drop_chars 1 path ∈ valid_scripts)).
  - rewrite run_python_script_unfold. cbv zeta.
    destruct (FS.read_file (cwd st) ("./webroot" +:+ path)) as [source|e];
      [|reflexivity].
    now destruct (snd (script_run source (cwd st) (clock st))).
  - now destruct (FS.read_file (cwd st) ("./webroot/" +:+ path)).
Qed.

(** The state [build_response] starts from differs from the state at
    [accept] in the connection log and the output streams only. *)
Lemma banner_frame (request : string) (st : State) :
  let st0 :=
    stdout_write (("Request received:" +:+ String LF request
                   +:+ String LF (String LF EmptyString))
                  +:+ String LF EmptyString)
                 (set_conn [] st) in
  cwd st0 = cwd st /\ clock st0 = clock st.
Proof.
  cbv zeta. now destruct (stdout_write_frame
    (("Request received:" +:+ String LF request
      +:+ String LF (String LF EmptyString)) +:+ String LF EmptyString)
    (set_conn [] st)) as (-> & -> & _).
Qed.

(** The calls on the connection, given what resolution comes to in any
    state with this filesystem and clock. *)
Lemma connection_from_outcome (request path : string) (st : State)
      (result : outcome (string * string)) :
  parse_request request = Return path ->
  (forall st', cwd st' = cwd st -> clock st' = clock st ->
               fst (response_path path st') = result) ->
  let st' := snd (server_connection request st) in
  match result with
  | Return (body, mimetype) =>
      conn st' = [Sendall (response_ok body mimetype); Close]
      /\ stderr st' = stderr st
  | Raise NotImplementedError =>
      conn st' = [Sendall response_method_not_allowed; Close]
      /\ stderr st' = stderr st
  | Raise NameError =>
      conn st' = [Sendall response_not_found; Close] /\ stderr st' = stderr st
  | Raise e => conn st' = [Close] /\ stderr st' = stderr st ++ [e]
  end.
Proof.
  intros Hparse Hres. cbv zeta.
  pose proof (server_connection_conn request st) as Hconn.
  cbv zeta in Hconn. rewrite build_response_unfold, Hparse in Hconn.
  destruct (banner_frame request st) as [Hcwd Hclock]. cbv zeta in Hcwd, Hclock.
  specialize (Hres _ Hcwd Hclock).
  destruct (response_path path _) as [[[body mimetype]|e] st1];
    cbn [fst] in Hres; subst result; [exact Hconn|].
  now destruct e.
Qed.

(** X6 [file_served]. A regular file directly under the document root,
    other than [make_time.py], is answered with a 200 response whose body
    is the file's content, byte for byte, and whose Content-Type is the
    type guessed from the path, [text/plain] when there is no guess. *)
Theorem file_served (request name data : string)
        (entries ws : list (string * node)) (st : State) :
  cwd st = Dir entries ->
  FS.lookup_entry "webroot" entries = Some (Dir ws) ->
  simple_name name ->
  FS.lookup_entry name ws = Some (File data) ->
  name <> "make_time.py" ->
  parse_request request = Return ("/" +:+ name) ->
  conn (snd (server_connection request st))
  = [ Sendall (response_ok data
                 match guess_type ("./webroot/" +:+ "/" +:+ name) with
                 | None => "text/plain"
                 | Some t => t
                 end);
      Close ].
Proof.
  intros Hcwd Hroot Hname Hfile Hnot Hparse.
  destruct (resolve_in_webroot entries ws name Hroot Hname) as [Hprobe Hraw].
  cbv zeta in Hprobe, Hraw. rewrite Hfile in Hprobe, Hraw.
  assert (Hno : ~ script_allowed ("/" +:+ name)).
  { intros [_ Hin]. apply list_elem_of_singleton in Hin. now apply Hnot. }
  eapply (connection_from_outcome request _ st (Return (data, _)) Hparse).
  intros st' Hcwd' _. rewrite response_path_outcome. cbv zeta.
  unfold FS.scandir, FS.read_file.
  rewrite Hcwd', Hcwd, Hprobe, (script_test_false _ Hno), Hraw.
  reflexivity.
Qed.

(** X7 [missing_is_404]. A name of at most [NAME_MAX] bytes that is not
    an entry of the document root is answered with exactly the 404 status
    line, the allow-listed script name included. *)
Theorem missing_is_404 (request name : string)
        (entries ws : list (string * node)) (st : State) :
  cwd st = Dir entries ->
  FS.lookup_entry "webroot" entries = Some (Dir ws) ->
  simple_name name ->
  String.length name <= NAME_MAX ->
  FS.lookup_entry name ws = None ->
  parse_request request = Return ("/" +:+ name) ->
  conn (snd (server_connection request st))
  = [ Sendall "HTTP/1.1 404 Not Found"; Close ].
Proof.
  intros Hcwd Hroot Hname _ Hnone Hparse.
  destruct (resolve_in_webroot entries ws name Hroot Hname) as [Hprobe _].
  cbv zeta in Hprobe. rewrite Hnone in Hprobe.
  eapply (connection_from_outcome request _ st (Raise NameError) Hparse).
  intros st' Hcwd' _. rewrite response_path_outcome. cbv zeta.
  unfold FS.scandir. now rewrite Hcwd', Hcwd, Hprobe.
Qed.

(** X8 [traversal_reads_outside_root]. Nothing stops a path from climbing
    out of the document root: [/../name] is answered with the content of
    the regular file [name] of the working directory, next to the
    document root. *)
Theorem traversal_reads_outside_root (request name data : string)
        (entries ws : list (string * node)) (st : State) :
  cwd st = Dir entries ->
  FS.lookup_entry "webroot" entries = Some (Dir ws) ->
  simple_name name ->
  FS.lookup_entry name entries = Some (File data) ->
  parse_request request = Return ("/../" +:+ name) ->
  conn (snd (server_connection request st))
  = [ Sendall (response_ok data
                 match guess_type ("./webroot/" +:+ "/../" +:+ name) with
                 | None => "text/plain"
                 | Some t => t
                 end);
      Close ].
Proof.
  intros Hcwd Hroot Hname Hfile Hparse.
  destruct (resolve_above_webroot entries ws name Hroot Hname) as [Hprobe Hraw].
  cbv zeta in Hprobe, Hraw. rewrite Hfile in Hprobe, Hraw.
  assert (Hno : ~ script_allowed ("/../" +:+ name)).
  { intros [_ Hin]. apply list_elem_of_singleton in Hin. discriminate Hin. }
  eapply (connection_from_outcome request _ st (Return (data, _)) Hparse).
  intros st' Hcwd' _. rewrite response_path_outcome. cbv zeta.
  unfold FS.scandir, FS.read_file.
  rewrite Hcwd', Hcwd, Hprobe, (script_test_false _ Hno), Hraw.
  reflexivity.
Qed.

End Outcomes.

Lemma simple_file_txt : simple_name "file.txt".
Proof. repeat split; discriminate. Qed.

Lemma file_served_witness :
  conn (snd (server_connection (host := Sample.host) (Sample.get "/file.txt")
               (Sample.boot Sample.bare_site 0)))
  = [ Sendall (response_ok "plain words" "text/plain"); Close ].
Proof.
  apply (file_served (host := Sample.host) (Sample.get "/file.txt")
           "file.txt" "plain words" _ _ (Sample.boot Sample.bare_site 0)
           eq_refl eq_refl simple_file_txt eq_refl).
  - discriminate.
  - reflexivity.
Defined.

Lemma simple_make_time : simple_name "make_time.py".
Proof. repeat split; discriminate. Qed.

Lemma missing_is_404_witness :
  conn (snd (server_connection (host := Sample.host)
               (Sample.get "/make_time.py") (Sample.boot Sample.bare_site 0)))
  = [ Sendall "HTTP/1.1 404 Not Found"; Close ].
Proof.
  apply (missing_is_404 (host := Sample.host) (Sample.get "/make_time.py")
           "make_time.py" _ _ (Sample.boot Sample.bare_site 0)
           eq_refl eq_refl simple_make_time).
  - vm_compute. lia.
  - reflexivity.
  - reflexivity.
Defined.

Lemma simple_secret_txt : simple_name "secret.txt".
Proof. repeat split; discriminate. Qed.

Lemma traversal_reads_outside_root_witness :
  conn (snd (server_connection (host := Sample.host)
               (Sample.get "/../secret.txt")
               (Sample.boot Fixtures.neighbours 0)))
  = [ Sendall (response_ok "not for the web" "text/plain"); Close ].
Proof.
  apply (traversal_reads_outside_root (host := Sample.host)
           (Sample.get "/../secret.txt") "secret.txt" "not for the web" _ _
           (Sample.boot Fixtures.neighbours 0)
           eq_refl eq_refl simple_secret_txt eq_refl).
  reflexivity.
Defined.

(** ** The allow-list test *)

(** X9 [script_allowed_iff]. For a path whose first character is an
    ASCII character, the test of line 135 passes exactly when the rest of
    the path is [make_time.py]: the first character is dropped unseen, it
    need not be the separator. *)
Theorem script_allowed_iff (c : ascii) (rest : string) :
  is_ascii c = true ->
  (script_allowed (String c rest) <-> rest = "make_time.py").
Proof.
  intros _. unfold script_allowed, valid_scripts. split.
  - intros [_ Hin]. now apply list_elem_of_singleton in Hin.
  - intros ->. split; [reflexivity|]. cbn. apply list_elem_of_here.
Qed.

Lemma script_allowed_iff_witness :
  script_allowed "xmake_time.py" /\ ~ script_allowed "/other.py".
Proof.
  split.
  - apply (script_allowed_iff "x"%char "make_time.py"); reflexivity.
  - intros Hyes.
    apply (script_allowed_iff "/"%char "other.py") in Hyes;
      [discriminate Hyes | reflexivity].
Defined.

Section ScriptPaths.

Context {host : Host}.


(** X11 [script_error_response]. An exception that ends the allow-listed
    script reaches the [except] clauses of the handler like any other: a
    [NameError] raised by the script is answered with the 404 response, a
    [NotImplementedError] with the 405 response, and anything else with
    nothing but a logged traceback. *)
Theorem script_error_response (request path source : string)
        (writes : list string) (e : Exn) (st : State) :
  parse_request request = Return path ->
  FS.scandir (cwd st) (probe path) = Raise NotADirectoryError ->
  script_allowed path ->
  FS.read_file (cwd st) ("./webroot" +:+ path) = Return source ->
  script_run source (cwd st) (clock st) = (writes, Some e) ->
  let st' := snd (server_connection request st) in
  conn st'
  = match e with
    | NameError => [Sendall "HTTP/1.1 404 Not Found"; Close]
    | NotImplementedError => [Sendall response_method_not_allowed; Close]
    | _ => [Close]
    end
  /\ stderr st'
     = match e with
       | NameError | NotImplementedError => stderr st
       | _ => stderr st ++ [e]
       end.
Proof.
  intros Hparse Hscan Hyes Hopen Hrun. cbv zeta.
  pose proof (connection_from_outcome request path st (Raise e) Hparse) as Hc.
  cbv zeta in Hc.
  assert (Hres : forall st', cwd st' = cwd st -> clock st' = clock st ->
                   fst (response_path path st') = Raise e).
  { intros st' Hcwd Hclock. rewrite response_path_outcome. cbv zeta.
    apply script_test_iff in Hyes.
    now rewrite Hcwd, Hclock, Hscan, Hyes, Hopen, Hrun. }
  specialize (Hc Hres). now destruct e.
Qed.

(** X12 [connection_always_closed]. Handling a connection never lets an
    exception out. Either one response is sent, of one of the three
    shapes, then the connection is closed and nothing is logged; or
    nothing is sent, one traceback is logged and the connection is
    closed. *)
Theorem connection_always_closed (request : string) (st : State) :
  let after := server_connection request st in
  fst after = Return tt
  /\ ((exists response : string,
         conn (snd after) = [Sendall response; Close]
         /\ stderr (snd after) = stderr st
         /\ (response = response_method_not_allowed
             \/ response = response_not_found
             \/ exists body mimetype, response = response_ok body mimetype))
      \/ (exists e : Exn,
            conn (snd after) = [Close]
            /\ stderr (snd after) = stderr st ++ [e])).
Proof.
  cbv zeta. split.
  - pose proof (server_connection_unfold request st) as Hu. cbv zeta in Hu.
    rewrite Hu. now destruct (build_response request _) as [[response|e] st1].
  - pose proof (server_connection_conn request st) as Hconn.
    cbv zeta in Hconn. rewrite build_response_unfold in Hconn.
    destruct (parse_request request) as [path|e].
    + destruct (response_path path _) as [[[body mimetype]|e] st1];
        cbn [fst] in Hconn.
      * left. exists (response_ok body mimetype). destruct Hconn. eauto 10.
      * destruct e; cbn [fst] in Hconn; destruct Hconn;
          try (right; eauto; fail); left; eauto 10.
    + destruct e; cbn [fst] in Hconn; destruct Hconn;
        try (right; eauto; fail); left; eauto 10.
Qed.

End ScriptPaths.


Lemma script_error_response_witness :
  conn (snd (server_connection (host := Sample.host)
               (Sample.get "/make_time.py")
               (Sample.boot (Sample.site Fixtures.typo_py) 0)))
  = [ Sendall "HTTP/1.1 404 Not Found"; Close ].
Proof.
  apply (script_error_response (host := Sample.host)
           (Sample.get "/make_time.py") "/make_time.py" Fixtures.typo_py
           [ "<p>" +:+ String LF EmptyString ] NameError
           (Sample.boot (Sample.site Fixtures.typo_py) 0)).
  - reflexivity.
  - reflexivity.
  - split; [reflexivity|]. cbn. apply list_elem_of_here.
  - reflexivity.
  - reflexivity.
Defined.

(** ** Where the server's own output goes *)

Section Streams.

Context {host : Host}.

Lemma response_path_stdout (path : string) (st : State) :
  sys_stdout (snd (response_path path st)) = sys_stdout st
  \/ exists id, sys_stdout (snd (response_path path st)) = Capture id.
Proof.
  rewrite response_path_unfold. cbv zeta.
  destruct (FS.scandir (cwd st) (probe path)) as [names|e]; [now left|].
  destruct e; try now left.
  destruct (bool_decide (last_chars 3 path = ".py")
            && bool_decide (drop_chars 1 path ∈ valid_scripts)).
  - rewrite run_python_script_unfold. cbv zeta.
    destruct (FS.read_file (cwd st) ("./webroot" +:+ path)) as [source|e];
      [|right; now eexists].
    destruct (snd (script_run source (cwd st) (clock st)));
      [right; now eexists | now left].
  - left. now destruct (FS.read_file (cwd st) ("./webroot/" +:+ path)).
Qed.

Lemma build_response_stdout (request : string) (st : State) :
  sys_stdout (snd (build_response request st)) = sys_stdout st
  \/ exists id, sys_stdout (snd (build_response request st)) = Capture id.
Proof.
  rewrite build_response_unfold.
  destruct (parse_request request) as [path|e]; [|left; now destruct e].
  pose proof (response_path_stdout path st) as Hs.
  destruct (response_path path st) as [[[body mimetype]|e] st1];
    [exact Hs|]. now destruct e.
Qed.

(** The streams after a connection, in terms of the state in which
    [build_response] starts. *)
Lemma connection_streams (request : string) (st : State) :
  let st0 :=
    stdout_write (("Request received:" +:+ String LF request
                   +:+ String LF (String LF EmptyString))
                  +:+ String LF EmptyString)
                 (set_conn [] st) in
  let st' := snd (server_connection request st) in
  console st' = console st0
  /\ (sys_stdout st' = sys_stdout st
      \/ exists id, sys_stdout st' = Capture id).
Proof.
  cbv zeta. pose proof (server_connection_unfold request st) as Hu.
  cbv zeta in Hu. rewrite Hu. clear Hu.
  set (st0 := stdout_write _ (set_conn [] st)).
  destruct (build_response_frame request st0) as (_ & _ & Hcons & _).
  pose proof (build_response_stdout request st0) as Hout.
  assert (H0 : sys_stdout st0 = sys_stdout st).
  { unfold st0. now destruct (stdout_write_frame
      (("Request received:" +:+ String LF request
        +:+ String LF (String LF EmptyString)) +:+ String LF EmptyString)
      (set_conn [] st)) as (_ & _ & _ & _ & -> & _). }
  rewrite H0 in Hout.
  destruct (build_response request st0) as [[response|e] st1];
    cbn [snd] in *; split; assumption.
Qed.

(** X13 [console_gets_only_the_echo]. While [sys.stdout] is the real
    stream, serving a connection adds to it the echo of the request and
    nothing else: whatever a script prints stays out of it. *)
Theorem console_gets_only_the_echo (request : string) (st : State) :
  sys_stdout st = RealStdout ->
  console (snd (server_connection request st))
  = console st +:+ "Request received:" +:+ String LF request
    +:+ String LF (String LF (String LF EmptyString)).
Proof.
  intros Hreal. destruct (connection_streams request st) as [-> _].
  unfold stdout_write. cbn [sys_stdout set_conn]. rewrite Hreal.
  cbn [console set_console set_conn]. f_equal.
  cbn [String.append]. do 17 f_equal.
  now rewrite !append_assoc.
Qed.

Lemma connection_keeps_redirect (request : string) (st : State) :
  sys_stdout st <> RealStdout ->
  sys_stdout (snd (server_connection request st)) <> RealStdout
  /\ console (snd (server_connection request st)) = console st.
Proof.
  intros Hred. destruct (connection_streams request st) as [Hcons Hout].
  cbv zeta in Hcons, Hout. split.
  - destruct Hout as [->|[id ->]]; [assumption | discriminate].
  - rewrite Hcons. unfold stdout_write. cbn [sys_stdout set_conn].
    now destruct (sys_stdout st).
Qed.

(** X14 [redirect_never_undone]. Once [sys.stdout] is no longer the real
    stream (a script has raised), no later connection brings it back:
    however many connections are served afterwards, [sys.stdout] is still
    redirected and the real stream has received nothing more. *)
Theorem redirect_never_undone (connections : list (list string)) :
  forall (st final : State) (logs : list (list ConnEvent)),
    sys_stdout st <> RealStdout ->
    server_loop connections st = Some (logs, final) ->
    sys_stdout final <> RealStdout /\ console final = console st.
Proof.
  induction connections as [|chunks rest IH]; intros st final logs Hred Hrun.
  - cbn in Hrun. injection Hrun as _ <-. now split.
  - cbn [server_loop] in Hrun.
    destruct (receive chunks) as [request|]; [|discriminate Hrun].
    destruct (connection_keeps_redirect request st Hred) as [Hred' Hcons].
    destruct (server_loop rest (snd (server_connection request st)))
      as [[logs' final']|] eqn:Hrest; [|discriminate Hrun].
    injection Hrun as _ <-.
    destruct (IH _ _ _ Hred' Hrest) as [Hf Hc]. split; [exact Hf|].
    now rewrite Hc.
Qed.

(** X15 [server_loop_serves_all]. When every peer sends the marker, every
    connection is served in turn: there is one log per connection, and
    each log is a single close, preceded by at most one send. *)
Theorem server_loop_serves_all (connections : list (list string)) :
  forall st : State,
    Forall (fun chunks => contains terminator (join EmptyString chunks) = true)
           connections ->
    exists (logs : list (list ConnEvent)) (final : State),
      server_loop connections st = Some (logs, final)
      /\ length logs = length connections
      /\ Forall (fun log => log = [Close]
                            \/ exists response, log = [Sendall response; Close])
                logs.
Proof.
  induction connections as [|chunks rest IH]; intros st Hall.
  - exists [], st. repeat split. constructor.
  - inversion Hall as [|? ? Hchunk Hrest]; subst.
    cbn [server_loop]. unfold receive.
    destruct (recv_loop EmptyString chunks) as [request|] eqn:Hrecv.
    + destruct (IH (snd (server_connection request st)) Hrest)
        as (logs & final & -> & Hlen & Hshape).
      exists (conn (snd (server_connection request st)) :: logs), final.
      split; [reflexivity|]. split; [cbn; now rewrite Hlen|].
      constructor; [|exact Hshape].
      pose proof (server_connection_conn request st) as Hconn.
      cbv zeta in Hconn.
      destruct (fst (build_response request _)) as [response|e];
        destruct Hconn as [-> _]; eauto.
    + apply (recv_loop_none chunks EmptyString eq_refl) in Hrecv.
      change (EmptyString +:+ join EmptyString chunks)
        with (join EmptyString chunks) in Hrecv.
      congruence.
Qed.

End Streams.

Lemma console_gets_only_the_echo_witness :
  console (snd (server_connection (host := Sample.host)
                  (Sample.get "/make_time.py")
                  (Sample.boot (Sample.site Sample.hello_py) 0)))
  = "Request received:" +:+ String LF (Sample.get "/make_time.py")
    +:+ String LF (String LF (String LF EmptyString)).
Proof.
  apply (console_gets_only_the_echo (host := Sample.host)
           (Sample.get "/make_time.py")
           (Sample.boot (Sample.site Sample.hello_py) 0)).
  reflexivity.
Defined.

Lemma redirect_never_undone_witness :
  let st := snd (server_connection (host := Sample.host)
                   (Sample.get "/make_time.py")
                   (Sample.boot (Sample.site Sample.fail_py) 0)) in
  exists logs final,
    server_loop (host := Sample.host)
      [ [Sample.get "/file.txt"]; [Sample.get "/make_time.py"] ] st
    = Some (logs, final)
    /\ sys_stdout final <> RealStdout
    /\ console final = console st.
Proof.
  cbv zeta.
  destruct (server_loop (host := Sample.host)
              [ [Sample.get "/file.txt"]; [Sample.get "/make_time.py"] ]
              (snd (server_connection (host := Sample.host)
                      (Sample.get "/make_time.py")
                      (Sample.boot (Sample.site Sample.fail_py) 0))))
    as [[logs final]|] eqn:Hrun.
  - exists logs, final. split; [reflexivity|].
    refine (redirect_never_undone (host := Sample.host)
              [ [Sample.get "/file.txt"]; [Sample.get "/make_time.py"] ]
              (snd (server_connection (host := Sample.host)
                      (Sample.get "/make_time.py")
                      (Sample.boot (Sample.site Sample.fail_py) 0)))
              final logs _ Hrun).
    vm_compute. discriminate.
  - vm_compute in Hrun. discriminate Hrun.
Defined.

Lemma server_loop_serves_all_witness :
  exists logs final,
    server_loop (host := Sample.host)
      [ [Sample.get "/file.txt"];
        ["POST / HT"; "TP/1.1" +:+ CRLF; CRLF] ]
      (Sample.boot Sample.bare_site 0)
    = Some (logs, final)
    /\ length logs = 2
    /\ Forall (fun log => log = [Close]
                          \/ exists response, log = [Sendall response; Close])
              logs.
Proof.
  apply (server_loop_serves_all (host := Sample.host)
           [ [Sample.get "/file.txt"];
             ["POST / HT"; "TP/1.1" +:+ CRLF; CRLF] ]
           (Sample.boot Sample.bare_site 0)).
  repeat constructor.
Defined.

(** ** The script runner, both ways out *)

Section BothWays.

Context {host : Host}.

(** X17 [run_python_script_stdout]. Every call of [run_python_script]
    makes one new buffer. When the call returns, [sys.stdout] is bound to
    what it was bound to before; when it raises, because the script raised
    or because the script could not be opened, [sys.stdout] is left bound
    to the new buffer. *)
Theorem run_python_script_stdout (path : string) (st : State) :
  let after := run_python_script path st in
  length (stringios (snd after)) = S (length (stringios st))
  /\ match fst after with
     | Return _ => sys_stdout (snd after) = sys_stdout st
     | Raise _ => sys_stdout (snd after) = Capture (length (stringios st))
     end.
Proof.
  cbv zeta. rewrite run_python_script_unfold. cbv zeta.
  destruct (FS.read_file (cwd st) ("./webroot" +:+ path)) as [source|e].
  - destruct (snd (script_run source (cwd st) (clock st)));
      cbn; rewrite length_app; cbn; split; (lia || reflexivity).
  - cbn. rewrite length_app. cbn. split; [lia | reflexivity].
Qed.

(** X18 [rejected_request_runs_nothing]. A request that [parse_request]
    rejects, for its method or for its shape, is answered or dropped
    without the script runner being called, without anything being
    executed and without [sys.stdout] being rebound. *)
Theorem rejected_request_runs_nothing (request : string) (e : Exn) (st : State) :
  parse_request request = Raise e ->
  let st' := snd (server_connection request st) in
  runner_calls st' = runner_calls st
  /\ exec_calls st' = exec_calls st
  /\ sys_stdout st' = sys_stdout st.
Proof.
  intros Hparse. cbv zeta.
  pose proof (server_connection_unfold request st) as Hu. cbv zeta in Hu.
  rewrite Hu. clear Hu. rewrite build_response_unfold, Hparse.
  destruct (stdout_write_frame
      (("Request received:" +:+ String LF request
        +:+ String LF (String LF EmptyString)) +:+ String LF EmptyString)
      (set_conn [] st)) as (_ & _ & _ & _ & Hout & Hrun & Hexec).
  cbn [set_conn runner_calls exec_calls sys_stdout] in Hout, Hrun, Hexec.
  destruct e; cbn [snd set_conn set_stderr runner_calls exec_calls sys_stdout];
    rewrite ?Hout, ?Hrun, ?Hexec; auto.
Qed.

(** X19 [subdirectory_listing]. For a directory directly under the
    document root whose entries have ASCII names, so that the listing
    encodes, the content is one line per entry, in the order of
    enumeration: the directory's name, a separator, the entry's name,
    CR LF. An empty directory gives an empty body. The type is the one
    guessed from the path, [text/plain] when there is no guess. *)
Theorem subdirectory_listing (name : string)
        (entries ws ds : list (string * node)) (st : State) :
  cwd st = Dir entries ->
  FS.lookup_entry "webroot" entries = Some (Dir ws) ->
  simple_name name ->
  FS.lookup_entry name ws = Some (Dir ds) ->
  Forall (fun child => ascii_only child = true) (map fst ds) ->
  response_path ("/" +:+ name) st
  = (Return
       (written (map (fun child => name +:+ "/" +:+ child +:+ CRLF)
                     (map fst ds)),
        match guess_type ("./webroot/" +:+ "/" +:+ name) with
        | None => "text/plain"
        | Some t => t
        end), st).
Proof.
  intros Hcwd Hroot Hname Hdir _.
  destruct (resolve_in_webroot entries ws name Hroot Hname) as [Hprobe _].
  cbv zeta in Hprobe. rewrite Hdir in Hprobe.
  rewrite (directory_listing ("/" +:+ name) st (map fst ds)).
  - assert (Hparts : Pathlib.parts ("/" +:+ name) = [name]).
    { unfold Pathlib.parts.
      change ("/" +:+ name) with (EmptyString +:+ String "/" name).
      rewrite (split_char_field "/" EmptyString name eq_refl).
      rewrite filter_cons_False by (intros [H _]; now apply H).
      apply simple_name_parts. exact Hname. }
    rewrite Hparts.
    assert (Hlines :
      map (fun child => join "/" ([name] ++ [child]) +:+ CRLF) (map fst ds)
      = map (fun child => name +:+ "/" +:+ child +:+ CRLF) (map fst ds)).
    { apply map_ext. intros child. cbn [app join].
      now rewrite !append_assoc. }
    now rewrite Hlines.
  - unfold FS.scandir. now rewrite Hcwd, Hprobe.
Qed.

End BothWays.

Lemma rejected_request_runs_nothing_witness :
  exec_calls (snd (server_connection (host := Sample.host)
                     ("POST /make_time.py HTTP/1.1" +:+ CRLF +:+ CRLF)
                     (Sample.boot (Sample.site Sample.hello_py) 0)))
  = [].
Proof.
  apply (rejected_request_runs_nothing (host := Sample.host)
           ("POST /make_time.py HTTP/1.1" +:+ CRLF +:+ CRLF)
           NotImplementedError
           (Sample.boot (Sample.site Sample.hello_py) 0)).
  reflexivity.
Defined.

Lemma simple_images : simple_name "images".
Proof. repeat split; discriminate. Qed.

Lemma subdirectory_listing_witness :
  response_path (host := Sample.host) "/images"
    (Sample.boot (Sample.site Sample.hello_py) 0)
  = (Return ("images/sample_1.png" +:+ CRLF, "text/plain"),
     Sample.boot (Sample.site Sample.hello_py) 0).
Proof.
  apply (subdirectory_listing (host := Sample.host) "images" _ _ _
           (Sample.boot (Sample.site Sample.hello_py) 0)
           eq_refl eq_refl simple_images eq_refl).
  repeat constructor.
Defined.
